(** * AirStatus: decoding the AirPods proximity-pairing advertisement

    A shallow embedding of [src/airstatus.py] and [src/main.py] and the
    properties of their decoder, retry decorator, advertisement filter and
    top-level program.

    The two files share lines 1-46 (constants, [retry_on_none],
    [fetch_airpods_raw_data]) verbatim; they differ in
    [parse_airpods_data] and its helpers, which are embedded separately in
    the modules [Airstatus] and [Main]. *)

From Stdlib Require Import ZArith QArith List Bool Lia.
From Stdlib.Strings Require Import String Ascii Byte.
From Stdlib Require Import DecimalString.
From stdpp Require Import base option list gmap.

Open Scope string_scope.
Open Scope Z_scope.

(** ** Python values and exceptions *)

(** The exceptions the embedded code can raise. *)
Inductive exn : Type :=
| ValueError
| IndexError
| SystemExit (code : Z).

(** A computation that returns a value or raises. *)
Inductive result (A : Type) : Type :=
| Ok (a : A)
| Raise (e : exn).

Arguments Ok {A} a.
Arguments Raise {A} e.

Definition bind {A B : Type} (m : result A) (k : A -> result B) : result B :=
  match m with
  | Ok a => k a
  | Raise e => Raise e
  end.

Notation "'let!' x ':=' e 'in' k" := (bind e (fun x => k))
  (at level 10, x name, e at level 100, k at level 200).

(** A Python [bytes] object: indexing yields an integer in 0..255. *)
Abbreviation bytes := (list byte).

(** [raw[i]] for a constant, non-negative index. *)
Definition getitem (raw : bytes) (i : nat) : result byte :=
  match raw !! i with
  | Some b => Ok b
  | None => Raise IndexError
  end.

(** [chr(b)] for [b] in 0..255. *)
Definition chr (b : byte) : ascii := ascii_of_byte b.

(** The value of a character as a base-16 digit: the digits, then the
    letters a to f in either case. *)
Definition hex_value (c : ascii) : option Z :=
  let code := Z.of_N (N_of_ascii c) in
  if (48 <=? code) && (code <=? 57) then Some (code - 48)
  else if (97 <=? code) && (code <=? 102) then Some (code - 87)
  else if (65 <=? code) && (code <=? 70) then Some (code - 55)
  else None.

(** [int(c, 16)] for a one-character string [c]: a single hex digit of
    either case is accepted, anything else (signs, blanks, underscores,
    letters past f) is a [ValueError]. *)
Definition int16 (c : ascii) : result Z :=
  match hex_value c with
  | Some n => Ok n
  | None => Raise ValueError
  end.

(** [binascii.hexlify]: two lowercase hex characters per byte, high nibble
    first. *)
Definition hex_alphabet : bytes := list_byte_of_string "0123456789abcdef".

Definition hex_char (n : N) : byte :=
  default x00 (hex_alphabet !! N.to_nat n).

Definition hexlify_byte (b : byte) : bytes :=
  [hex_char (N.shiftr (Byte.to_N b) 4); hex_char (N.land (Byte.to_N b) 15)].

Definition hexlify (data : bytes) : bytes := flat_map hexlify_byte data.

(** The values that reach [json.dumps]; a [dict] keeps insertion order. *)
#[warnings="-register-all"]
Inductive pyval : Type :=
| PNone
| PBool (b : bool)
| PInt (z : Z)
| PStr (s : string)
| PDict (items : list (string * pyval)).

(** [d[key]] on an insertion-ordered dict. *)
Fixpoint assoc (key : string) (items : list (string * pyval)) : option pyval :=
  match items with
  | [] => None
  | (k, v) :: rest => if String.eqb k key then Some v else assoc key rest
  end.

Definition dict_get (key : string) (d : pyval) : option pyval :=
  match d with
  | PDict items => assoc key items
  | _ => None
  end.

(** [d[k1][k2]...]. *)
Fixpoint dict_path (keys : list string) (d : pyval) : option pyval :=
  match keys with
  | [] => Some d
  | k :: rest =>
      match dict_get k d with
      | Some v => dict_path rest v
      | None => None
      end
  end.

(** ** [json.dumps] with its default separators and [ensure_ascii] *)

Definition dq : string := String (ascii_of_byte x22) EmptyString.
Definition backslash : string := String (ascii_of_byte x5c) EmptyString.

Definition hex_string (n : N) : string :=
  String (ascii_of_byte (hex_char n)) EmptyString.

(** One character of a string literal: the quote, the backslash and the
    control characters have short escapes, everything else outside
    space..tilde is written as a four-digit escape. *)
Definition json_escape_char (c : ascii) : string :=
  let n := N_of_ascii c in
  if (n =? 34)%N then backslash ++ dq
  else if (n =? 92)%N then backslash ++ backslash
  else if (n =? 10)%N then backslash ++ "n"
  else if (n =? 13)%N then backslash ++ "r"
  else if (n =? 9)%N then backslash ++ "t"
  else if (n =? 12)%N then backslash ++ "f"
  else if (n =? 8)%N then backslash ++ "b"
  else if ((32 <=? n) && (n <=? 126))%N then String c EmptyString
  else backslash ++ "u00" ++ hex_string (N.shiftr n 4)
       ++ hex_string (N.land n 15).

Fixpoint json_escape (s : string) : string :=
  match s with
  | EmptyString => EmptyString
  | String c rest => json_escape_char c ++ json_escape rest
  end.

Definition json_string (s : string) : string := dq ++ json_escape s ++ dq.

Definition json_int (z : Z) : string := NilZero.string_of_int (Z.to_int z).

Fixpoint json_dumps (v : pyval) : string :=
  match v with
  | PNone => "null"
  | PBool true => "true"
  | PBool false => "false"
  | PInt z => json_int z
  | PStr s => json_string s
  | PDict items =>
      let fix members (l : list (string * pyval)) : string :=
        match l with
        | [] => EmptyString
        | [(k, x)] => json_string k ++ ": " ++ json_dumps x
        | (k, x) :: rest =>
            json_string k ++ ": " ++ json_dumps x ++ ", " ++ members rest
        end in
      "{" ++ members items ++ "}"
  end.

(** ** Effects: the scan environment, the clock and standard output *)

(** What the program does to the outside world, in order. *)
Inductive event : Type :=
| Call                      (* the decorated function was invoked *)
| Sleep (seconds : Q)       (* [time.sleep(seconds)] returned *)
| Print (line : string).    (* [print(line)] *)

(** The world: an environment of type [E] (whatever the probe reads and
    changes) and the trace of events so far. *)
Record World (E : Type) : Type := mkWorld { env : E; trace : list event }.

Arguments mkWorld {E} env trace.
Arguments env {E} w.
Arguments trace {E} w.

Definition emit {E : Type} (ev : event) (w : World E) : World E :=
  mkWorld (env w) (trace w ++ [ev]).

(** A statement: it may raise, and it changes the world. *)
Definition IO (E A : Type) : Type := World E -> result A * World E.

Definition io_ret {E A : Type} (a : A) : IO E A := fun w => (Ok a, w).

Definition io_bind {E A B : Type} (m : IO E A) (k : A -> IO E B) : IO E B :=
  fun w =>
    match m w with
    | (Ok a, w') => k a w'
    | (Raise e, w') => (Raise e, w')
    end.

Notation "'let*' x ':=' e 'in' k" := (io_bind e (fun x => k))
  (at level 10, x name, e at level 100, k at level 200).

Definition io_raise {E A : Type} (e : exn) : IO E A := fun w => (Raise e, w).

Definition io_lift {E A : Type} (r : result A) : IO E A := fun w => (r, w).

(** [print(line)]. *)
Definition print {E : Type} (line : string) : IO E unit :=
  fun w => (Ok tt, emit (Print line) w).

(** [exit(code)]. *)
Definition exit {E : Type} (code : Z) : IO E unit := io_raise (SystemExit code).

(** The lines written to standard output, the number of invocations of the
    decorated function and the number of sleeps recorded in a trace. *)
Definition stdout (tr : list event) : list string :=
  omap (fun ev => match ev with Print line => Some line | _ => None end) tr.

Definition is_call (ev : event) : bool :=
  match ev with Call => true | _ => false end.

Definition is_sleep (ev : event) : bool :=
  match ev with Sleep _ => true | _ => false end.

Definition calls (tr : list event) : nat := length (List.filter is_call tr).

Definition delays (tr : list event) : nat := length (List.filter is_sleep tr).

(** The exit status of the interpreter: 0 on a normal end, the code of
    [SystemExit], 1 for any other uncaught exception. *)
Definition exit_status (r : result unit) : Z :=
  match r with
  | Ok _ => 0
  | Raise (SystemExit code) => code
  | Raise _ => 1
  end.

(** ** [retry_on_none], lines 15-30 of both files *)

Section Retry.

Context {E T : Type}.

(** How the environment changes while the program sleeps. *)
Variable elapse : Q -> E -> E.

(** [time.sleep(seconds)]: a negative argument is a [ValueError]. *)
Definition time_sleep (seconds : Q) : IO E unit :=
  fun w =>
    if Qle_bool 0 seconds
    then (Ok tt,
          emit (Sleep seconds) (mkWorld (elapse seconds (env w)) (trace w)))
    else (Raise ValueError, w).

Variable times : Z.
Variable sleep_ms : Q.

(** The decorated function [f]: it reads and changes the environment
    and returns [None] or a value. *)
Variable f : E -> option T * E.

(** The call of [f] with the wrapper's own arguments. *)
Definition call_f : IO E (option T) :=
  fun w =>
    let (val, e) := f (env w) in
    (Ok val, emit Call (mkWorld e (trace w))).

(** The body of [for _ in range(times)] followed by [return None];
    [n] iterations remain. *)
Fixpoint wrapper_loop (n : nat) : IO E (option T) :=
  match n with
  | O => io_ret None
  | S n' =>
      let* val := call_f in
      match val with
      | Some v => io_ret (Some v)
      | None =>
          let* _ := time_sleep (sleep_ms / 1000)%Q in
          wrapper_loop n'
      end
  end.

(** [range(times)] is empty for [times <= 0]. *)
Definition wrapper : IO E (option T) := wrapper_loop (Z.to_nat times).

End Retry.

Definition retry_on_none {E T : Type} (elapse : Q -> E -> E)
  (times : Z) (sleep_ms : Q) (f : E -> option T * E) : IO E (option T) :=
  wrapper elapse times sleep_ms f.

(** ** [fetch_airpods_raw_data], lines 33-46 of both files *)

Definition MIN_RSSI : Z := -60.
Definition AIRPODS_MANUFACTURER : Z := 76.
Definition AIRPODS_DATA_LENGTH : Z := 54.

(** A discovered device: [d.rssi] and [d.metadata["manufacturer_data"]],
    a dict from company identifier to blob that each device owns. *)
Record Device : Type := mkDevice {
  rssi : Z;
  manufacturer_data : gmap Z bytes
}.

(** [m.pop(key, None)]: the value under [key], if any, and the dict
    without [key]. *)
Definition pop (key : Z) (m : gmap Z bytes) : option bytes * gmap Z bytes :=
  (m !! key, delete key m).

(** Truth value of [data], which is [None] or a [bytes] object. *)
Definition truthy (data : option bytes) : bool :=
  match data with
  | Some (_ :: _) => true
  | _ => false
  end.

(** One iteration of [for d in devices]: the value returned from inside
    the loop, if any, and the device as the iteration leaves it. *)
Definition examine (d : Device) : option bytes * Device :=
  let (data, m) := pop AIRPODS_MANUFACTURER (manufacturer_data d) in
  let d' := mkDevice (rssi d) m in
  if (MIN_RSSI <=? rssi d) && truthy data then
    let data_hex := hexlify (default [] data) in
    if Z.of_nat (length data_hex) =? AIRPODS_DATA_LENGTH
    then (Some data_hex, d')
    else (None, d')
  else (None, d').

(** The loop and the final [return None]: the result and the devices as
    the loop leaves them. *)
Fixpoint fetch_loop (devices : list Device) : option bytes * list Device :=
  match devices with
  | [] => (None, [])
  | d :: rest =>
      match examine d with
      | (Some data_hex, d') => (Some data_hex, d' :: rest)
      | (None, d') =>
          let (r, rest') := fetch_loop rest in
          (r, d' :: rest')
      end
  end.

Section Fetch.

Context {E : Type}.

(** [asyncio.run(discover())]: one scan of the environment. *)
Variable discover : E -> list Device * E.
Variable elapse : Q -> E -> E.

(** The undecorated function: the device list is local to one call. *)
Definition fetch_once (e : E) : option bytes * E :=
  let (devices, e') := discover e in
  (fst (fetch_loop devices), e').

(** [@retry_on_none(times=10, sleep_ms=500)]. *)
Definition fetch_airpods_raw_data : IO E (option bytes) :=
  retry_on_none elapse 10 500 fetch_once.

(** [main], identical in both files up to the decoder it calls. *)
Definition main_with (parse_airpods_data : bytes -> result pyval)
  : IO E unit :=
  let* raw_data := fetch_airpods_raw_data in
  match raw_data with
  | None =>
      let* _ := print (json_dumps (PDict [("connected", PBool false)])) in
      exit 1
  | Some raw =>
      let* status := io_lift (parse_airpods_data raw) in
      print (json_dumps status)
  end.

End Fetch.

(** ** The decoder of [src/airstatus.py] *)

(** The model table of [parse_airpods_data], keyed by one-character
    strings, and [dict.get] with a default. *)
Definition model_table : list (string * string) :=
  [("2", "Airpods 1"); ("f", "Airpods 2"); ("e", "Airpods Pro");
   ("a", "Airpods Max")].

Fixpoint table_get (table : list (string * string)) (key default : string)
  : string :=
  match table with
  | [] => default
  | (k, v) :: rest => if String.eqb k key then v else table_get rest key default
  end.

Definition model_of (b : byte) : string :=
  table_get model_table (String (chr b) EmptyString) "Unknown".

(** [(charging_status & mask) != 0]. *)
Definition bit_set (charging_status mask : Z) : bool :=
  negb (Z.land charging_status mask =? 0).

Module Airstatus.

(** [parse_battery_level], lines 80-86: [None] past ten. *)
Definition parse_battery_level (raw_status : byte) : result pyval :=
  let! raw_status := int16 (chr raw_status) in
  if raw_status <=? 10 then Ok (PInt (raw_status * 10)) else Ok PNone.

(** [maybe_flip], lines 89-101: the dict it returns lists "right" first. *)
Definition maybe_flip (raw : bytes) (left right : pyval)
  : result (list (string * pyval)) :=
  let! b10 := getitem raw 10 in
  let! n := int16 (chr b10) in
  let is_flipped_ := Z.land n 2 =? 0 in
  if is_flipped_ then Ok [("right", left); ("left", right)]
  else Ok [("right", right); ("left", left)].

(** [parse_airpods_data], lines 49-77, in Python's evaluation order. *)
Definition parse_airpods_data (raw : bytes) : result pyval :=
  let! b7 := getitem raw 7 in
  let model := model_of b7 in
  let! b14 := getitem raw 14 in
  let! charging_status := int16 (chr b14) in
  let! b15 := getitem raw 15 in
  let! case := parse_battery_level b15 in
  let! b13 := getitem raw 13 in
  let! left := parse_battery_level b13 in
  let! b12 := getitem raw 12 in
  let! right := parse_battery_level b12 in
  let! charge := maybe_flip raw left right in
  let! charging :=
    maybe_flip raw (PBool (bit_set charging_status 1))
                   (PBool (bit_set charging_status 2)) in
  Ok (PDict
        [("connected", PBool true);
         ("model", PStr model);
         ("charge", PDict (("case", case) :: charge));
         ("charging",
           PDict (("case", PBool (bit_set charging_status 4)) :: charging))]).

End Airstatus.

(** ** The decoder of [src/main.py] *)

Module Main.

(** [parse_battery_level], lines 82-88: [-1] past ten. *)
Definition parse_battery_level (raw_status : byte) : result pyval :=
  let! raw_status := int16 (chr raw_status) in
  if raw_status <=? 10 then Ok (PInt (raw_status * 10)) else Ok (PInt (-1)).

(** [is_flipped], lines 91-92. *)
Definition is_flipped (raw : bytes) : result bool :=
  let! b10 := getitem raw 10 in
  let! n := int16 (chr b10) in
  Ok (Z.land n 2 =? 0).

(** [parse_airpods_data], lines 49-79. *)
Definition parse_airpods_data (raw : bytes) : result pyval :=
  let! b7 := getitem raw 7 in
  let model := model_of b7 in
  let! b13 := getitem raw 13 in
  let! left_status := parse_battery_level b13 in
  let! b12 := getitem raw 12 in
  let! right_status := parse_battery_level b12 in
  let! b15 := getitem raw 15 in
  let! case_status := parse_battery_level b15 in
  let! b14 := getitem raw 14 in
  let! charging_status := int16 (chr b14) in
  let left_charging := bit_set charging_status 1 in
  let right_charging := bit_set charging_status 2 in
  let case_charging := bit_set charging_status 4 in
  let! flip := is_flipped raw in
  Ok (PDict
        [("connected", PBool true);
         ("charge",
           PDict [("left", if flip then right_status else left_status);
                  ("right", if flip then left_status else right_status);
                  ("case", case_status)]);
         ("charging_left",
           PBool (if flip then right_charging else left_charging));
         ("charging_right",
           PBool (if flip then left_charging else right_charging));
         ("charging_case", PBool case_charging);
         ("model", PStr model)]).

End Main.


(** ** The two programs *)

Definition airstatus_main {E : Type} (discover : E -> list Device * E)
  (elapse : Q -> E -> E) : IO E unit :=
  main_with discover elapse Airstatus.parse_airpods_data.

Definition main_main {E : Type} (discover : E -> list Device * E)
  (elapse : Q -> E -> E) : IO E unit :=
  main_with discover elapse Main.parse_airpods_data.

Definition payload (s : string) : bytes := list_byte_of_string s.

(** ** Reading the payload *)

(** The hex digit at index [i] of a payload, when there is a byte there
    and [int(chr(.), 16)] accepts it. *)
Definition digit_at (raw : bytes) (i : nat) : option Z :=
  match raw !! i with
  | Some b => hex_value (chr b)
  | None => None
  end.

(** The two output layouts: [charge] is nested in both files, the
    charging flags are nested in [airstatus.py] and flat in [main.py]. *)
Definition charge_of (pos : string) (st : pyval) : option pyval :=
  dict_path ["charge"; pos] st.

Definition charging_nested (pos : string) (st : pyval) : option pyval :=
  dict_path ["charging"; pos] st.

Definition charging_flat (pos : string) (st : pyval) : option pyval :=
  dict_get ("charging_" ++ pos) st.

Definition dict_keys (d : pyval) : list string :=
  match d with
  | PDict items => map fst items
  | _ => []
  end.

(** ** Sample inputs *)

(** A 27-byte payload: model character e, flip digit 2 (not flipped),
    right-raw 6, left-raw 5, charging digit 5, case 7. *)
Definition sample_payload : bytes := payload "0719010e2020655700000000000".

(** The same payload with flip digit 0 (flipped). *)
Definition sample_flipped : bytes := payload "0719010e2000655700000000000".

(** Left and right of [s1] are right and left of [s2], the case value is
    the same, and all three are present; [get] reads a position. *)
Definition lr_swapped (get : string -> pyval -> option pyval)
  (s1 s2 : pyval) : Prop :=
  exists l r c,
    get "left" s2 = Some l /\ get "right" s2 = Some r /\
    get "case" s2 = Some c /\
    get "left" s1 = Some r /\ get "right" s1 = Some l /\
    get "case" s1 = Some c.

(** ** The advertisement filter as the specification words it *)

(** The three checks on a record: a blob under the vendor identifier, a
    signal strength of at least the minimum, a hex encoding of the expected
    length. *)
Definition passes (d : Device) : bool :=
  match manufacturer_data d !! AIRPODS_MANUFACTURER with
  | Some blob =>
      (MIN_RSSI <=? rssi d)
      && (Z.of_nat (length (hexlify blob)) =? AIRPODS_DATA_LENGTH)
  | None => false
  end.

(** The hex-encoded blob of the first record, in scan order, that passes;
    absent when none does. *)
Definition select_payload (devices : list Device) : option bytes :=
  match List.find passes devices with
  | Some d => hexlify <$> manufacturer_data d !! AIRPODS_MANUFACTURER
  | None => None
  end.

(** A record after the pop: the same signal strength, the vendor key gone. *)
Definition popped (d : Device) : Device :=
  mkDevice (rssi d) (delete AIRPODS_MANUFACTURER (manufacturer_data d)).

(** How many records the loop examines: all of them up to and including
    the first that passes, or the whole batch. *)
Fixpoint examined (devices : list Device) : nat :=
  match devices with
  | [] => 0
  | d :: rest => if passes d then 1 else S (examined rest)
  end.

(** A batch of three records: one too weak, one with a short blob, one
    without vendor data. None passes. *)
Definition sample_rejected : list Device :=
  [ mkDevice (-70) {[ 76 := payload "weak" ]};
    mkDevice (-40) {[ 76 := payload "short" ]};
    mkDevice (-40) {[ 6 := payload "other vendor" ]} ].

(** ** The probe between attempts *)

(** The environment in which the next attempt starts, after an attempt
    that returned [None] and the sleep that follows it. *)
Definition after_failed_attempt {E T : Type} (elapse : Q -> E -> E)
  (sleep_ms : Q) (f : E -> option T * E) (e : E) : E :=
  elapse (sleep_ms / 1000)%Q (snd (f e)).

(** The events of [k] attempts that each returned [None]. *)
Definition failed_rounds (sleep_ms : Q) (k : nat) : list event :=
  concat (replicate k [Call; Sleep (sleep_ms / 1000)%Q]).

(** A probe that never finds anything, in an environment without state. *)
Definition never_found : unit -> option bytes * unit := fun e => (None, e).

(** A probe over a counter: it finds 7 on its third call. *)
Definition found_on_third : nat -> option nat * nat :=
  fun e => (if (e =? 2)%nat then Some 7%nat else None, S e).

Definition still : Q -> unit -> unit := fun _ e => e.
Definition steady : Q -> nat -> nat := fun _ e => e.

(** ** The output of the program *)

(** The line printed when no payload was found: an object with the one
    member [connected], false. *)
Definition disconnected_line : string :=
  "{" ++ dq ++ "connected" ++ dq ++ ": false}".

(** What [main] leaves behind, given what the retried scan returned:
    [r] is how [main] ended and [out] what it printed. *)
Definition main_outcome (parse_airpods_data : bytes -> result pyval)
  (fetched : result (option bytes)) (r : result unit) (out : list string)
  : Prop :=
  match fetched with
  | Ok None => out = [disconnected_line] /\ exit_status r = 1
  | Ok (Some raw) =>
      exists st,
        parse_airpods_data raw = Ok st /\
        dict_get "connected" st = Some (PBool true) /\
        out = [json_dumps st] /\ exit_status r = 0
  | Raise _ => False
  end.

(** A scan environment: the batches that the coming scans will return. *)
Definition scripted_discover (e : list (list Device))
  : list Device * list (list Device) :=
  match e with
  | [] => ([], [])
  | batch :: later => (batch, later)
  end.

Definition scripted_elapse : Q -> list (list Device) -> list (list Device) :=
  fun _ e => e.

(** A 27-byte blob: its hex encoding starts 0719010e20206557, so it reads
    model character e, flip digit 2, right-raw 6, left-raw 5, charging
    digit 5 and case 7. *)
Definition sample_blob : bytes :=
  ([x07; x19; x01; x0e; x20; x20; x65; x57] ++ replicate 19 x00)%list.

Definition sample_scans : list (list Device) :=
  [ sample_rejected; [];
    [ mkDevice (-50) {[ 76 := sample_blob ]} ] ].

(** A decoder that returns has read a byte at index 7 and a hex digit at
    each of the five semantic indices. *)
Definition readable (raw : bytes) : Prop :=
  exists b7 n10 d12 d13 n14 d15,
    raw !! 7%nat = Some b7 /\
    digit_at raw 10 = Some n10 /\ digit_at raw 12 = Some d12 /\
    digit_at raw 13 = Some d13 /\ digit_at raw 14 = Some n14 /\
    digit_at raw 15 = Some d15.

(** ** What the decoders read *)

(** The indices [parse_airpods_data] reads, and those among them that
    it reads as hex digits. *)
Definition indices_read : list nat := [7; 10; 12; 13; 14; 15]%nat.
Definition digit_indices : list nat := [10; 12; 13; 14; 15]%nat.

(** The five model names. *)
Definition model_names : list string :=
  ["Airpods 1"; "Airpods 2"; "Airpods Pro"; "Airpods Max"; "Unknown"].

(** The sample payload with its left-raw digit changed from 5 to b, in
    lowercase and in uppercase. *)
Definition sample_lower : bytes := payload "0719010e20206b5700000000000".
Definition sample_upper : bytes := payload "0719010e20206B5700000000000".

(** ** Nibbles of a blob byte *)

Definition hi_nibble (b : byte) : Z := Z.of_N (Byte.to_N b) / 16.
Definition lo_nibble (b : byte) : Z := Z.of_N (Byte.to_N b) mod 16.

(** ** More sample batches *)

(** A batch with two records that pass, after one that is too weak. *)
Definition sample_two_matches : list Device :=
  [ mkDevice (-70) {[ 76 := sample_blob ]};
    mkDevice (-60) {[ 76 := sample_blob; 6 := payload "other" ]};
    mkDevice (-30) {[ 76 := replicate 27 xff ]} ].

(** ** The shape of a run of the program *)

(** A run of [main] that ended with [r] and left the trace [tr]: [k]
    scans that found nothing, each followed by a sleep of half a second,
    then the scan that found a payload, if one did, and last the one line
    printed. Without a payload all ten scans were made, the line is the
    disconnected one and the exit status is 1; with one, fewer than ten
    scans failed and the exit status is 0. *)
Definition main_trace_shape (r : result unit) (tr : list event) : Prop :=
  exists (k : nat) (found : bool) (line : string),
    tr = (failed_rounds 500 k
            ++ (if found then [Call] else []) ++ [Print line])%list /\
    (if found then (k < 10)%nat
     else k = 10%nat /\ line = disconnected_line) /\
    exit_status r = (if found then 0 else 1).

(** * Properties *)

(** ** Basic facts *)

Lemma hex_value_range (c : ascii) (n : Z) :
  hex_value c = Some n -> 0 <= n <= 15.
Proof.
  intros H. destruct c as [[] [] [] [] [] [] [] []]; vm_compute in H;
    try discriminate H; injection H as <-; lia.
Qed.

Lemma digit_at_range (raw : bytes) (i : nat) (n : Z) :
  digit_at raw i = Some n -> 0 <= n <= 15.
Proof.
  unfold digit_at. destruct (raw !! i); [apply hex_value_range | discriminate].
Qed.

Lemma bit_set_testbit (n : Z) :
  0 <= n <= 15 ->
  bit_set n 1 = Z.testbit n 0 /\ bit_set n 2 = Z.testbit n 1
  /\ bit_set n 4 = Z.testbit n 2.
Proof.
  intros H. rewrite <- (Z2Nat.id n) by lia.
  assert (Hm : (Z.to_nat n < 16)%nat) by lia.
  revert Hm. generalize (Z.to_nat n) as m. intros m Hm.
  do 16 (destruct m as [| m]; [repeat split; reflexivity |]). lia.
Qed.

Lemma lookup_of_length (raw : bytes) (i : nat) :
  (i < length raw)%nat -> exists b, raw !! i = Some b.
Proof. intros H. destruct (lookup_lt_is_Some_2 raw i H) as [b Hb]. eauto. Qed.

Lemma digit_at_lookup (raw : bytes) (i : nat) (n : Z) :
  digit_at raw i = Some n ->
  exists b, raw !! i = Some b /\ hex_value (chr b) = Some n.
Proof.
  unfold digit_at. destruct (raw !! i) as [b |]; [eauto | discriminate].
Qed.

(** ** The decoders, spelled out on the digits they read *)

Ltac with_digits :=
  repeat match goal with
  | H : digit_at ?raw ?i = Some ?n |- _ =>
      let b := fresh "b" in
      let Hb := fresh "Hb" in
      let Hv := fresh "Hv" in
      destruct (digit_at_lookup raw i n H) as (b & Hb & Hv); clear H
  end.

Lemma airstatus_parse_digits (raw : bytes) (b7 : byte)
  (n10 d12 d13 n14 d15 : Z) :
  raw !! 7%nat = Some b7 ->
  digit_at raw 10 = Some n10 -> digit_at raw 12 = Some d12 ->
  digit_at raw 13 = Some d13 -> digit_at raw 14 = Some n14 ->
  digit_at raw 15 = Some d15 ->
  Airstatus.parse_airpods_data raw =
    let flip := Z.land n10 2 =? 0 in
    let level d := if d <=? 10 then PInt (d * 10) else PNone in
    Ok (PDict
          [("connected", PBool true);
           ("model", PStr (model_of b7));
           ("charge",
             PDict [("case", level d15);
                    ("right", level (if flip then d13 else d12));
                    ("left", level (if flip then d12 else d13))]);
           ("charging",
             PDict [("case", PBool (bit_set n14 4));
                    ("right", PBool (bit_set n14 (if flip then 1 else 2)));
                    ("left", PBool (bit_set n14 (if flip then 2 else 1)))])]).
Proof.
  intros H7 H10 H12 H13 H14 H15. with_digits.
  unfold Airstatus.parse_airpods_data, Airstatus.maybe_flip,
    Airstatus.parse_battery_level, getitem, int16.
  repeat match goal with
  | H : _ !! _ = Some _ |- _ => rewrite H; clear H; cbn [bind]
  | H : hex_value _ = Some _ |- _ => rewrite H; clear H; cbn [bind]
  end.
  cbv zeta.
  destruct (Z.land n10 2 =? 0); cbv iota;
    destruct (d15 <=? 10), (d13 <=? 10), (d12 <=? 10); reflexivity.
Qed.

Lemma main_parse_digits (raw : bytes) (b7 : byte)
  (n10 d12 d13 n14 d15 : Z) :
  raw !! 7%nat = Some b7 ->
  digit_at raw 10 = Some n10 -> digit_at raw 12 = Some d12 ->
  digit_at raw 13 = Some d13 -> digit_at raw 14 = Some n14 ->
  digit_at raw 15 = Some d15 ->
  Main.parse_airpods_data raw =
    let flip := Z.land n10 2 =? 0 in
    let level d := PInt (if d <=? 10 then d * 10 else -1) in
    Ok (PDict
          [("connected", PBool true);
           ("charge",
             PDict [("left", level (if flip then d12 else d13));
                    ("right", level (if flip then d13 else d12));
                    ("case", level d15)]);
           ("charging_left", PBool (bit_set n14 (if flip then 2 else 1)));
           ("charging_right", PBool (bit_set n14 (if flip then 1 else 2)));
           ("charging_case", PBool (bit_set n14 4));
           ("model", PStr (model_of b7))]).
Proof.
  intros H7 H10 H12 H13 H14 H15. with_digits.
  unfold Main.parse_airpods_data, Main.is_flipped,
    Main.parse_battery_level, getitem, int16.
  repeat match goal with
  | H : _ !! _ = Some _ |- _ => rewrite H; clear H; cbn [bind]
  | H : hex_value _ = Some _ |- _ => rewrite H; clear H; cbn [bind]
  end.
  cbv zeta.
  destruct (Z.land n10 2 =? 0); cbv iota;
    destruct (d15 <=? 10), (d13 <=? 10), (d12 <=? 10); reflexivity.
Qed.

Lemma airstatus_parse_inv (raw : bytes) (st : pyval) :
  Airstatus.parse_airpods_data raw = Ok st -> readable raw.
Proof.
  unfold Airstatus.parse_airpods_data, Airstatus.maybe_flip,
    Airstatus.parse_battery_level, getitem, int16, readable, digit_at.
  destruct (raw !! 7%nat) as [b7 |]; [| discriminate]. cbn [bind].
  destruct (raw !! 14%nat) as [b14 |]; [| discriminate]. cbn [bind].
  destruct (hex_value (chr b14)) as [n14 |]; [| discriminate]. cbn [bind].
  destruct (raw !! 15%nat) as [b15 |]; [| discriminate]. cbn [bind].
  destruct (hex_value (chr b15)) as [d15 |]; [| discriminate]. cbn [bind].
  destruct (d15 <=? 10); cbn [bind];
  (destruct (raw !! 13%nat) as [b13 |]; [| discriminate]; cbn [bind];
   destruct (hex_value (chr b13)) as [d13 |]; [| discriminate]; cbn [bind];
   destruct (d13 <=? 10); cbn [bind];
   (destruct (raw !! 12%nat) as [b12 |]; [| discriminate]; cbn [bind];
    destruct (hex_value (chr b12)) as [d12 |]; [| discriminate]; cbn [bind];
    destruct (d12 <=? 10); cbn [bind];
    (destruct (raw !! 10%nat) as [b10 |]; [| discriminate]; cbn [bind];
     destruct (hex_value (chr b10)) as [n10 |]; [| discriminate];
     intros _; exists b7, n10, d12, d13, n14, d15; repeat split; reflexivity))).
Qed.

Lemma main_parse_inv (raw : bytes) (st : pyval) :
  Main.parse_airpods_data raw = Ok st -> readable raw.
Proof.
  unfold Main.parse_airpods_data, Main.is_flipped,
    Main.parse_battery_level, getitem, int16, readable, digit_at.
  destruct (raw !! 7%nat) as [b7 |]; [| discriminate]. cbn [bind].
  destruct (raw !! 13%nat) as [b13 |]; [| discriminate]. cbn [bind].
  destruct (hex_value (chr b13)) as [d13 |]; [| discriminate]. cbn [bind].
  destruct (d13 <=? 10); cbn [bind];
  (destruct (raw !! 12%nat) as [b12 |]; [| discriminate]; cbn [bind];
   destruct (hex_value (chr b12)) as [d12 |]; [| discriminate]; cbn [bind];
   destruct (d12 <=? 10); cbn [bind];
   (destruct (raw !! 15%nat) as [b15 |]; [| discriminate]; cbn [bind];
    destruct (hex_value (chr b15)) as [d15 |]; [| discriminate]; cbn [bind];
    destruct (d15 <=? 10); cbn [bind];
    (destruct (raw !! 14%nat) as [b14 |]; [| discriminate]; cbn [bind];
     destruct (hex_value (chr b14)) as [n14 |]; [| discriminate]; cbn [bind];
     destruct (raw !! 10%nat) as [b10 |]; [| discriminate]; cbn [bind];
     destruct (hex_value (chr b10)) as [n10 |]; [| discriminate];
     intros _; exists b7, n10, d12, d13, n14, d15; repeat split; reflexivity))).
Qed.

(** From a successful decode to the digits read and the explicit status. *)
Ltac decoded_airstatus H :=
  let R := fresh "R" in
  pose proof (airstatus_parse_inv _ _ H) as R;
  destruct R as (?b7 & ?n10 & ?d12 & ?d13 & ?n14 & ?d15 &
                 ?H7 & ?H10 & ?H12 & ?H13 & ?H14 & ?H15);
  erewrite airstatus_parse_digits in H by eassumption;
  cbv zeta in H; injection H as <-.

Ltac decoded_main H :=
  let R := fresh "R" in
  pose proof (main_parse_inv _ _ H) as R;
  destruct R as (?b7 & ?n10 & ?d12 & ?d13 & ?n14 & ?d15 &
                 ?H7 & ?H10 & ?H12 & ?H13 & ?H14 & ?H15);
  erewrite main_parse_digits in H by eassumption;
  cbv zeta in H; injection H as <-.

Lemma digit_at_byte (raw : bytes) (i : nat) (b : byte) (d n : Z) :
  raw !! i = Some b -> hex_value (chr b) = Some d ->
  digit_at raw i = Some n -> n = d.
Proof. unfold digit_at. intros -> E1 E2. congruence. Qed.

Lemma airstatus_level (b : byte) (d : Z) :
  hex_value (chr b) = Some d ->
  Airstatus.parse_battery_level b =
    Ok (if d <=? 10 then PInt (d * 10) else PNone).
Proof.
  intros H. unfold Airstatus.parse_battery_level, int16. rewrite H.
  cbn [bind]. destruct (d <=? 10); reflexivity.
Qed.

Lemma main_level (b : byte) (d : Z) :
  hex_value (chr b) = Some d ->
  Main.parse_battery_level b =
    Ok (PInt (if d <=? 10 then d * 10 else -1)).
Proof.
  intros H. unfold Main.parse_battery_level, int16. rewrite H.
  cbn [bind]. destruct (d <=? 10); reflexivity.
Qed.

(** ** Battery levels *)

(** C1. In a 27-byte payload, the byte at index 12, 13 or 15 whose
    character reads as the hex digit [d] decodes to the level [d * 10] when
    [d] is at most 10 and to the sentinel when [d] is 11 to 15: [None] in
    [airstatus.py], [-1] in [main.py]. The level is what the decoder stores:
    the case byte's under ["case"], the other two under ["left"] and
    ["right"]. *)
Theorem battery_level_mapping (raw : bytes) (i : nat) (b : byte) (d : Z) :
  length raw = 27%nat ->
  i = 12%nat \/ i = 13%nat \/ i = 15%nat ->
  raw !! i = Some b ->
  hex_value (chr b) = Some d ->
  0 <= d <= 15 /\
  (d <= 10 ->
     Airstatus.parse_battery_level b = Ok (PInt (d * 10)) /\
     Main.parse_battery_level b = Ok (PInt (d * 10))) /\
  (11 <= d ->
     Airstatus.parse_battery_level b = Ok PNone /\
     Main.parse_battery_level b = Ok (PInt (-1))) /\
  (forall st v,
     Airstatus.parse_airpods_data raw = Ok st ->
     Airstatus.parse_battery_level b = Ok v ->
     if (i =? 15)%nat then charge_of "case" st = Some v
     else charge_of "left" st = Some v \/ charge_of "right" st = Some v) /\
  (forall st v,
     Main.parse_airpods_data raw = Ok st ->
     Main.parse_battery_level b = Ok v ->
     if (i =? 15)%nat then charge_of "case" st = Some v
     else charge_of "left" st = Some v \/ charge_of "right" st = Some v).
Proof.
  intros _ Hi Hb Hd.
  pose proof (hex_value_range _ _ Hd) as Hr.
  split; [exact Hr |].
  split.
  { intros Hle. rewrite (airstatus_level b d Hd), (main_level b d Hd).
    destruct (Z.leb_spec d 10); [auto | lia]. }
  split.
  { intros Hge. rewrite (airstatus_level b d Hd), (main_level b d Hd).
    destruct (Z.leb_spec d 10); [lia | auto]. }
  split.
  - intros st v Hst Hv. rewrite (airstatus_level b d Hd) in Hv.
    injection Hv as <-. decoded_airstatus Hst.
    destruct Hi as [-> | [-> | ->]].
    + rewrite (digit_at_byte _ _ _ _ _ Hb Hd H12).
      destruct (Z.land n10 2 =? 0); cbn; auto.
    + rewrite (digit_at_byte _ _ _ _ _ Hb Hd H13).
      destruct (Z.land n10 2 =? 0); cbn; auto.
    + rewrite (digit_at_byte _ _ _ _ _ Hb Hd H15). reflexivity.
  - intros st v Hst Hv. rewrite (main_level b d Hd) in Hv.
    injection Hv as <-. decoded_main Hst.
    destruct Hi as [-> | [-> | ->]].
    + rewrite (digit_at_byte _ _ _ _ _ Hb Hd H12).
      destruct (Z.land n10 2 =? 0); cbn; auto.
    + rewrite (digit_at_byte _ _ _ _ _ Hb Hd H13).
      destruct (Z.land n10 2 =? 0); cbn; auto.
    + rewrite (digit_at_byte _ _ _ _ _ Hb Hd H15). reflexivity.
Qed.

Lemma battery_level_mapping_witness :
  Airstatus.parse_battery_level "6"%byte = Ok (PInt 60) /\
  Main.parse_battery_level "6"%byte = Ok (PInt 60).
Proof.
  destruct (battery_level_mapping sample_payload 12 "6"%byte 6
              eq_refl (or_introl eq_refl) eq_refl eq_refl)
    as (_ & H & _).
  apply H. lia.
Defined.

(** ** Model lookup *)

(** C4. The model a 27-byte payload decodes to depends on the character at
    index 7 alone: 2, f, e and a give the four names, every other character,
    the uppercase hex digits among them, gives Unknown. Both files agree. *)
Theorem model_by_index_7 (raw : bytes) (b7 : byte) (st : pyval) :
  length raw = 27%nat ->
  raw !! 7%nat = Some b7 ->
  Airstatus.parse_airpods_data raw = Ok st \/
  Main.parse_airpods_data raw = Ok st ->
  dict_get "model" st = Some (PStr (model_of b7)) /\
  (chr b7 = "2"%char -> model_of b7 = "Airpods 1") /\
  (chr b7 = "f"%char -> model_of b7 = "Airpods 2") /\
  (chr b7 = "e"%char -> model_of b7 = "Airpods Pro") /\
  (chr b7 = "a"%char -> model_of b7 = "Airpods Max") /\
  (chr b7 <> "2"%char -> chr b7 <> "f"%char -> chr b7 <> "e"%char ->
   chr b7 <> "a"%char -> model_of b7 = "Unknown") /\
  (chr b7 = "F"%char \/ chr b7 = "E"%char \/ chr b7 = "A"%char ->
   model_of b7 = "Unknown").
Proof.
  intros _ Hb7 Hst. split.
  { destruct Hst as [Hst | Hst].
    - decoded_airstatus Hst. rewrite Hb7 in H7. injection H7 as <-.
      reflexivity.
    - decoded_main Hst. rewrite Hb7 in H7. injection H7 as <-.
      reflexivity. }
  unfold model_of, model_table, table_get.
  repeat split.
  - intros ->. reflexivity.
  - intros ->. reflexivity.
  - intros ->. reflexivity.
  - intros ->. reflexivity.
  - intros N2 Nf Ne Na.
    repeat match goal with
    | |- context [String.eqb ?x ?y] =>
        destruct (String.eqb_spec x y) as [Heq | _];
        [injection Heq as Heq; congruence |]
    end.
    reflexivity.
  - intros [-> | [-> | ->]]; reflexivity.
Qed.

Lemma model_by_index_7_witness :
  dict_get "model"
    (PDict
       [("connected", PBool true); ("model", PStr "Airpods Pro");
        ("charge",
          PDict [("case", PInt 70); ("right", PInt 60); ("left", PInt 50)]);
        ("charging",
          PDict [("case", PBool true); ("right", PBool false);
                 ("left", PBool true)])])
  = Some (PStr (model_of "e"%byte)).
Proof.
  apply (model_by_index_7 sample_payload "e"%byte _ eq_refl eq_refl
           (or_introl eq_refl)).
Defined.

(** ** Malformed payloads *)

Ltac bytes_of_length raw Hlen :=
  destruct (lookup_of_length raw 7) as [?b ?L]; [rewrite Hlen; lia |];
  destruct (lookup_of_length raw 10) as [?b ?L]; [rewrite Hlen; lia |];
  destruct (lookup_of_length raw 12) as [?b ?L]; [rewrite Hlen; lia |];
  destruct (lookup_of_length raw 13) as [?b ?L]; [rewrite Hlen; lia |];
  destruct (lookup_of_length raw 14) as [?b ?L]; [rewrite Hlen; lia |];
  destruct (lookup_of_length raw 15) as [?b ?L]; [rewrite Hlen; lia |].

Ltac run_decoder Hd :=
  repeat (cbn [bind];
          first
            [ rewrite Hd
            | match goal with
              | |- context [hex_value (chr ?x)] => destruct (hex_value (chr x))
              | |- context [?d <=? 10] => destruct (d <=? 10)
              end ]);
  try reflexivity.

(** C8. A 27-byte payload with a character that is not a hex digit at
    index 10, 12, 13, 14 or 15 does not decode: both decoders raise
    [ValueError] and return no status. *)
Theorem non_hex_digit_raises (raw : bytes) (i : nat) (b : byte) :
  length raw = 27%nat ->
  i = 10%nat \/ i = 12%nat \/ i = 13%nat \/ i = 14%nat \/ i = 15%nat ->
  raw !! i = Some b ->
  hex_value (chr b) = None ->
  Airstatus.parse_airpods_data raw = Raise ValueError /\
  Main.parse_airpods_data raw = Raise ValueError.
Proof.
  intros Hlen Hi Hb Hd. bytes_of_length raw Hlen.
  unfold Airstatus.parse_airpods_data, Airstatus.maybe_flip,
    Airstatus.parse_battery_level, Main.parse_airpods_data, Main.is_flipped,
    Main.parse_battery_level, getitem, int16.
  destruct Hi as [-> | [-> | [-> | [-> | ->]]]];
    match goal with
    | H : raw !! _ = Some ?x |- _ =>
        rewrite Hb in H; injection H as <-
    end;
    repeat match goal with
    | H : _ !! _ = Some _ |- _ => rewrite H; clear H
    end;
    rewrite ?Hb;
    split; run_decoder Hd.
Qed.

Lemma non_hex_digit_raises_witness :
  Airstatus.parse_airpods_data (payload "0719010e2020g55700000000000")
    = Raise ValueError /\
  Main.parse_airpods_data (payload "0719010e2020g55700000000000")
    = Raise ValueError.
Proof.
  apply (non_hex_digit_raises (payload "0719010e2020g55700000000000")
           12 "g"%byte eq_refl); [auto | reflexivity | reflexivity].
Defined.

(** ** Charging flags *)

Lemma bit_set_low3 (n n' : Z) :
  0 <= n <= 15 -> 0 <= n' <= 15 -> Z.land n' 7 = Z.land n 7 ->
  bit_set n' 1 = bit_set n 1 /\ bit_set n' 2 = bit_set n 2
  /\ bit_set n' 4 = bit_set n 4.
Proof.
  intros Hn Hn' Hlow.
  destruct (bit_set_testbit n Hn) as (-> & -> & ->).
  destruct (bit_set_testbit n' Hn') as (-> & -> & ->).
  assert (Hbit : forall k, 0 <= k < 3 -> Z.testbit n' k = Z.testbit n k).
  { intros k Hk.
    assert (H7 : Z.testbit 7 k = true).
    { assert (K : k = 0 \/ k = 1 \/ k = 2) by lia.
      destruct K as [-> | [-> | ->]]; reflexivity. }
    pose proof (Z.land_spec n 7 k) as E. pose proof (Z.land_spec n' 7 k) as E'.
    rewrite H7, andb_true_r in E, E'. rewrite <- E, <- E', Hlow. reflexivity. }
  rewrite !Hbit by lia. auto.
Qed.

(** C5. In a 27-byte payload whose index-14 character reads as the hex
    digit [n], bit 0 of [n] is the charging flag of the raw-left bud, bit 1
    that of the raw-right bud and bit 2 that of the case, for every [n];
    the raw-left flag is stored under ["left"] unless the payload is
    flipped, and then under ["right"]. Two payloads that differ only in an
    index-14 digit with the same low three bits decode alike, so bit 3 has
    no effect. *)
Theorem charging_flags (raw : bytes) (n n10 : Z) :
  length raw = 27%nat ->
  digit_at raw 14 = Some n ->
  digit_at raw 10 = Some n10 ->
  let left_raw := if Z.land n10 2 =? 0 then "right" else "left" in
  let right_raw := if Z.land n10 2 =? 0 then "left" else "right" in
  (forall st,
     Airstatus.parse_airpods_data raw = Ok st ->
     charging_nested left_raw st = Some (PBool (Z.testbit n 0)) /\
     charging_nested right_raw st = Some (PBool (Z.testbit n 1)) /\
     charging_nested "case" st = Some (PBool (Z.testbit n 2))) /\
  (forall st,
     Main.parse_airpods_data raw = Ok st ->
     charging_flat left_raw st = Some (PBool (Z.testbit n 0)) /\
     charging_flat right_raw st = Some (PBool (Z.testbit n 1)) /\
     charging_flat "case" st = Some (PBool (Z.testbit n 2))) /\
  (forall raw' n',
     length raw' = 27%nat ->
     (forall i, i <> 14%nat -> raw' !! i = raw !! i) ->
     digit_at raw' 14 = Some n' ->
     Z.land n' 7 = Z.land n 7 ->
     Airstatus.parse_airpods_data raw' = Airstatus.parse_airpods_data raw /\
     Main.parse_airpods_data raw' = Main.parse_airpods_data raw).
Proof.
  intros Hlen Hn Hn10 left_raw right_raw.
  pose proof (digit_at_range _ _ _ Hn) as Hr.
  destruct (bit_set_testbit n Hr) as (B0 & B1 & B2).
  split; [| split].
  - intros st Hst. decoded_airstatus Hst.
    rewrite Hn in H14. injection H14 as <-.
    rewrite Hn10 in H10. injection H10 as <-.
    subst left_raw right_raw. rewrite <- B0, <- B1, <- B2.
    destruct (Z.land n10 2 =? 0); cbn; auto.
  - intros st Hst. decoded_main Hst.
    rewrite Hn in H14. injection H14 as <-.
    rewrite Hn10 in H10. injection H10 as <-.
    subst left_raw right_raw. rewrite <- B0, <- B1, <- B2.
    destruct (Z.land n10 2 =? 0); cbn; auto.
  - intros raw' n' Hlen' Hsame Hn' Hlow.
    pose proof (digit_at_range _ _ _ Hn') as Hr'.
    destruct (bit_set_low3 n n' Hr Hr' Hlow) as (E1 & E2 & E4).
    destruct (digit_at_lookup _ _ _ Hn) as (b14 & L14 & V14).
    destruct (digit_at_lookup _ _ _ Hn') as (b14' & L14' & V14').
    unfold Airstatus.parse_airpods_data, Airstatus.maybe_flip,
      Airstatus.parse_battery_level, Main.parse_airpods_data,
      Main.is_flipped, Main.parse_battery_level, getitem, int16.
    rewrite L14, L14'.
    rewrite !(Hsame 7%nat), !(Hsame 10%nat), !(Hsame 12%nat),
      !(Hsame 13%nat), !(Hsame 15%nat) by lia.
    bytes_of_length raw Hlen.
    repeat match goal with
    | H : raw !! _ = Some _ |- _ => rewrite H; clear H
    end.
    cbn [bind]. rewrite V14, V14'. cbn [bind]. rewrite E1, E2, E4.
    split; reflexivity.
Qed.

Lemma charging_flags_witness :
  charging_nested "left"
    (PDict
       [("connected", PBool true); ("model", PStr "Airpods Pro");
        ("charge",
          PDict [("case", PInt 70); ("right", PInt 60); ("left", PInt 50)]);
        ("charging",
          PDict [("case", PBool true); ("right", PBool false);
                 ("left", PBool true)])])
  = Some (PBool (Z.testbit 5 0)).
Proof.
  destruct (charging_flags sample_payload 5 2 eq_refl eq_refl eq_refl)
    as (H & _).
  apply (H _ eq_refl).
Defined.

(** ** Orientation *)

Lemma digit_at_same (raw1 raw2 : bytes) (i : nat) :
  raw1 !! i = raw2 !! i -> digit_at raw1 i = digit_at raw2 i.
Proof. unfold digit_at. intros ->. reflexivity. Qed.

Lemma main_is_flipped_digit (raw : bytes) (n : Z) :
  digit_at raw 10 = Some n -> Main.is_flipped raw = Ok (Z.land n 2 =? 0).
Proof.
  intros H. destruct (digit_at_lookup _ _ _ H) as (b & Hb & Hv).
  unfold Main.is_flipped, getitem, int16. rewrite Hb. cbn [bind].
  rewrite Hv. reflexivity.
Qed.

Lemma airstatus_maybe_flip_digit (raw : bytes) (n : Z) (left right : pyval) :
  digit_at raw 10 = Some n ->
  Airstatus.maybe_flip raw left right =
    Ok (if Z.land n 2 =? 0 then [("right", left); ("left", right)]
        else [("right", right); ("left", left)]).
Proof.
  intros H. destruct (digit_at_lookup _ _ _ H) as (b & Hb & Hv).
  unfold Airstatus.maybe_flip, getitem, int16. rewrite Hb. cbn [bind].
  rewrite Hv. cbn [bind]. destruct (Z.land n 2 =? 0); reflexivity.
Qed.

(** C2. Take two 27-byte payloads that agree everywhere except at index
    10, where the first reads a hex digit with bit 0x02 clear and the second
    one with bit 0x02 set. The decoders treat the first as flipped and the
    second as not flipped, and where the second decodes, the first decodes
    too, with the left and right battery values and charging flags swapped
    and the case value and flag the same. *)
Theorem flip_swaps (raw1 raw2 : bytes) (n1 n2 : Z) (a2 m2 : pyval) :
  length raw1 = 27%nat -> length raw2 = 27%nat ->
  (forall i, i <> 10%nat -> raw1 !! i = raw2 !! i) ->
  digit_at raw1 10 = Some n1 -> digit_at raw2 10 = Some n2 ->
  Z.land n1 2 = 0 -> Z.land n2 2 <> 0 ->
  Airstatus.parse_airpods_data raw2 = Ok a2 ->
  Main.parse_airpods_data raw2 = Ok m2 ->
  Main.is_flipped raw1 = Ok true /\ Main.is_flipped raw2 = Ok false /\
  (forall left right,
     Airstatus.maybe_flip raw1 left right
       = Ok [("right", left); ("left", right)] /\
     Airstatus.maybe_flip raw2 left right
       = Ok [("right", right); ("left", left)]) /\
  exists a1 m1,
    Airstatus.parse_airpods_data raw1 = Ok a1 /\
    Main.parse_airpods_data raw1 = Ok m1 /\
    lr_swapped charge_of a1 a2 /\ lr_swapped charging_nested a1 a2 /\
    lr_swapped charge_of m1 m2 /\ lr_swapped charging_flat m1 m2.
Proof.
  intros _ _ Hsame Hn1 Hn2 Hclear Hset Ha2 Hm2.
  assert (F1 : (Z.land n1 2 =? 0) = true) by (apply Z.eqb_eq; exact Hclear).
  assert (F2 : (Z.land n2 2 =? 0) = false) by (apply Z.eqb_neq; exact Hset).
  split; [rewrite (main_is_flipped_digit _ _ Hn1), F1; reflexivity |].
  split; [rewrite (main_is_flipped_digit _ _ Hn2), F2; reflexivity |].
  split.
  { intros left right.
    rewrite (airstatus_maybe_flip_digit _ _ _ _ Hn1), F1.
    rewrite (airstatus_maybe_flip_digit _ _ _ _ Hn2), F2. auto. }
  decoded_airstatus Ha2.
  rewrite (main_parse_digits raw2 _ _ _ _ _ _ H7 H10 H12 H13 H14 H15) in Hm2.
  cbv zeta in Hm2. injection Hm2 as <-.
  rewrite Hn2 in H10. injection H10 as <-.
  rewrite <- (Hsame 7%nat) in H7 by lia.
  rewrite <- (digit_at_same raw1 raw2 12) in H12 by (apply Hsame; lia).
  rewrite <- (digit_at_same raw1 raw2 13) in H13 by (apply Hsame; lia).
  rewrite <- (digit_at_same raw1 raw2 14) in H14 by (apply Hsame; lia).
  rewrite <- (digit_at_same raw1 raw2 15) in H15 by (apply Hsame; lia).
  eexists _, _.
  rewrite (airstatus_parse_digits raw1 _ _ _ _ _ _ H7 Hn1 H12 H13 H14 H15).
  rewrite (main_parse_digits raw1 _ _ _ _ _ _ H7 Hn1 H12 H13 H14 H15).
  cbv zeta. rewrite F1.
  split; [reflexivity |]. split; [reflexivity |].
  rewrite F2. unfold lr_swapped.
  repeat split; eexists _, _, _; cbn; repeat split; reflexivity.
Qed.

Lemma flip_swaps_witness :
  Main.is_flipped sample_flipped = Ok true /\
  Main.is_flipped sample_payload = Ok false.
Proof.
  assert (Hsame : forall i, i <> 10%nat ->
                    sample_flipped !! i = sample_payload !! i).
  { intros i Hi.
    do 10 (destruct i as [| i]; [reflexivity |]).
    destruct i as [| i]; [congruence | reflexivity]. }
  assert (Hset : Z.land 2 2 <> 0) by discriminate.
  destruct (flip_swaps sample_flipped sample_payload 0 2 _ _
              eq_refl eq_refl Hsame eq_refl eq_refl eq_refl Hset
              eq_refl eq_refl)
    as (H1 & H2 & _).
  split; [exact H1 | exact H2].
Defined.

(** ** The two decoders side by side *)

Lemma digit_at_hex (raw : bytes) (i : nat) :
  Forall (fun b => hex_value (chr b) <> None) raw ->
  (i < length raw)%nat ->
  exists n, digit_at raw i = Some n.
Proof.
  intros Hhex Hi. destruct (lookup_of_length raw i Hi) as [b Hb].
  unfold digit_at. rewrite Hb.
  pose proof (proj1 (Forall_lookup _ raw) Hhex i b Hb) as Hv.
  cbv beta in Hv.
  destruct (hex_value (chr b)) as [n |]; [eauto | congruence].
Qed.

Lemma level_cases (d : Z) :
  0 <= d <= 15 ->
  (exists p, 0 <= p <= 100 /\
     Some (if d <=? 10 then PInt (d * 10) else PNone) = Some (PInt p) /\
     Some (PInt (if d <=? 10 then d * 10 else -1)) = Some (PInt p)) \/
  (Some (if d <=? 10 then PInt (d * 10) else PNone) = Some PNone /\
   Some (PInt (if d <=? 10 then d * 10 else -1)) = Some (PInt (-1))).
Proof.
  intros Hd. destruct (Z.leb_spec d 10).
  - left. exists (d * 10). repeat split; lia.
  - right. auto.
Qed.

(** C9. On a 27-byte payload of hex-digit characters both decoders return
    a status. The two agree on the model, on [connected] (true), on the
    three charging flags and on every battery percentage; where one stores
    [None] for a battery level the other stores [-1]; the flags are nested
    under ["charging"] in one and flat in the other, and there are no other
    fields. *)
Theorem variants_agree (raw : bytes) :
  length raw = 27%nat ->
  Forall (fun b => hex_value (chr b) <> None) raw ->
  exists a m,
    Airstatus.parse_airpods_data raw = Ok a /\
    Main.parse_airpods_data raw = Ok m /\
    dict_keys a = ["connected"; "model"; "charge"; "charging"] /\
    dict_keys m = ["connected"; "charge"; "charging_left"; "charging_right";
                   "charging_case"; "model"] /\
    dict_get "connected" a = Some (PBool true) /\
    dict_get "connected" m = Some (PBool true) /\
    (exists name,
       dict_get "model" a = Some (PStr name) /\
       dict_get "model" m = Some (PStr name)) /\
    forall pos, pos = "left" \/ pos = "right" \/ pos = "case" ->
      (exists flag,
         charging_nested pos a = Some (PBool flag) /\
         charging_flat pos m = Some (PBool flag)) /\
      ((exists p, 0 <= p <= 100 /\
          charge_of pos a = Some (PInt p) /\
          charge_of pos m = Some (PInt p)) \/
       (charge_of pos a = Some PNone /\
        charge_of pos m = Some (PInt (-1)))).
Proof.
  intros Hlen Hhex.
  destruct (lookup_of_length raw 7) as [b7 H7]; [rewrite Hlen; lia |].
  destruct (digit_at_hex raw 10 Hhex) as [n10 H10]; [rewrite Hlen; lia |].
  destruct (digit_at_hex raw 12 Hhex) as [d12 H12]; [rewrite Hlen; lia |].
  destruct (digit_at_hex raw 13 Hhex) as [d13 H13]; [rewrite Hlen; lia |].
  destruct (digit_at_hex raw 14 Hhex) as [n14 H14]; [rewrite Hlen; lia |].
  destruct (digit_at_hex raw 15 Hhex) as [d15 H15]; [rewrite Hlen; lia |].
  eexists _, _.
  rewrite (airstatus_parse_digits raw _ _ _ _ _ _ H7 H10 H12 H13 H14 H15).
  rewrite (main_parse_digits raw _ _ _ _ _ _ H7 H10 H12 H13 H14 H15).
  cbv zeta.
  do 6 (split; [reflexivity |]).
  split; [eexists; split; reflexivity |].
  pose proof (digit_at_range _ _ _ H12) as R12.
  pose proof (digit_at_range _ _ _ H13) as R13.
  pose proof (digit_at_range _ _ _ H15) as R15.
  intros pos [-> | [-> | ->]];
    (split; [eexists; split; reflexivity |]);
    unfold charge_of; cbn [dict_path dict_get assoc String.eqb Ascii.eqb
                           Bool.eqb];
    destruct (Z.land n10 2 =? 0); apply level_cases; assumption.
Qed.

Lemma variants_agree_witness :
  exists a m,
    Airstatus.parse_airpods_data sample_payload = Ok a /\
    Main.parse_airpods_data sample_payload = Ok m /\
    dict_get "connected" a = Some (PBool true) /\
    dict_get "connected" m = Some (PBool true).
Proof.
  assert (Hhex : Forall (fun b => hex_value (chr b) <> None) sample_payload).
  { unfold sample_payload, payload. cbn [list_byte_of_string].
    repeat (apply Forall_cons; split; [discriminate |]). apply Forall_nil.
    exact I. }
  destruct (variants_agree sample_payload eq_refl Hhex)
    as (a & m & Ha & Hm & _ & _ & Ca & Cm & _).
  exists a, m. auto.
Defined.

(** ** The advertisement filter *)

Lemma examine_passes (d : Device) :
  examine d =
    (if passes d
     then hexlify <$> manufacturer_data d !! AIRPODS_MANUFACTURER
     else None,
     popped d).
Proof.
  unfold examine, pop, passes, popped.
  destruct (manufacturer_data d !! AIRPODS_MANUFACTURER) as [[| b blob] |];
    destruct (MIN_RSSI <=? rssi d);
    cbn [andb truthy from_option id fmap option_fmap option_map];
    try reflexivity.
  destruct (Z.of_nat (length (hexlify (b :: blob))) =? AIRPODS_DATA_LENGTH);
    reflexivity.
Qed.

Lemma passes_blob (d : Device) :
  passes d = true ->
  exists blob, manufacturer_data d !! AIRPODS_MANUFACTURER = Some blob.
Proof.
  unfold passes.
  destruct (manufacturer_data d !! AIRPODS_MANUFACTURER) as [blob |];
    [eauto | discriminate].
Qed.

Lemma fetch_loop_cons (d : Device) (rest : list Device) :
  fetch_loop (d :: rest) =
    if passes d
    then (hexlify <$> manufacturer_data d !! AIRPODS_MANUFACTURER,
          popped d :: rest)
    else (fst (fetch_loop rest), popped d :: snd (fetch_loop rest)).
Proof.
  cbn [fetch_loop]. rewrite examine_passes.
  destruct (passes d) eqn:Hp.
  - destruct (passes_blob d Hp) as [blob ->]. reflexivity.
  - destruct (fetch_loop rest). reflexivity.
Qed.

(** C6. For every batch of records the loop returns the hex-encoded blob
    of the first record, in scan order, that has a blob under vendor 76, a
    signal strength of at least -60 and a hex encoding of 54 characters,
    and [None] when no record passes, the empty batch included. *)
Theorem filter_returns_first_match (devices : list Device) :
  fst (fetch_loop devices) = select_payload devices.
Proof.
  unfold select_payload.
  induction devices as [| d rest IH]; [reflexivity |].
  rewrite fetch_loop_cons. cbn [find].
  destruct (passes d); [reflexivity | exact IH].
Qed.

Lemma popped_no_key (d : Device) :
  manufacturer_data (popped d) !! AIRPODS_MANUFACTURER = None.
Proof. unfold popped. cbn [manufacturer_data]. apply lookup_delete_eq. Qed.

Lemma popped_same (d : Device) :
  popped d = d <-> manufacturer_data d !! AIRPODS_MANUFACTURER = None.
Proof.
  destruct d as [r m]. unfold popped. cbn [rssi manufacturer_data]. split.
  - intros H. injection H as H. rewrite <- H. apply lookup_delete_eq.
  - intros H. f_equal. apply delete_id. exact H.
Qed.

Lemma examined_le (devices : list Device) :
  (examined devices <= length devices)%nat.
Proof.
  induction devices as [| d rest IH]; cbn [examined length]; [lia |].
  destruct (passes d); lia.
Qed.

(** C10. The loop changes the batch it scans: it leaves every record it
    examined (all records up to and including the first that passes, or the
    whole batch when none passes) without the vendor-76 key, whether it
    returned that record's blob or rejected the record, and leaves the
    records after them as they were. The batch is unchanged only when no
    examined record carried the key. *)
Theorem filter_pops_examined (devices : list Device) :
  let k := examined devices in
  let after := snd (fetch_loop devices) in
  after = ((popped <$> take k devices) ++ drop k devices)%list /\
  Forall (fun d => manufacturer_data d !! AIRPODS_MANUFACTURER = None)
    (take k after) /\
  Forall (fun d => passes d = false) (take (k - 1) devices) /\
  (fst (fetch_loop devices) = None <->
   k = length devices /\ Forall (fun d => passes d = false) devices) /\
  (after = devices <->
   Forall (fun d => manufacturer_data d !! AIRPODS_MANUFACTURER = None)
     (take k devices)).
Proof.
  cbv zeta.
  induction devices as [| d rest IH].
  { cbn. repeat split; auto. }
  destruct IH as (IH1 & IH2 & IH3 & IH4 & IH5).
  rewrite fetch_loop_cons. cbn [examined].
  destruct (passes d) eqn:Hp; cbn [fst snd].
  - cbn [take drop fmap list_fmap app Nat.sub].
    split; [reflexivity |]. split.
    { apply Forall_cons.
      split; [apply popped_no_key | apply Forall_nil; exact I]. }
    split; [apply Forall_nil; exact I |]. split.
    + destruct (passes_blob d Hp) as [blob ->]. cbn. split; [discriminate |].
      intros [_ H]. apply Forall_cons in H as [H _]. congruence.
    + split.
      * intros H. injection H as H. apply popped_same in H.
        apply Forall_cons. split; [exact H | apply Forall_nil; exact I].
      * intros H. apply Forall_cons in H as [H _]. f_equal.
        apply popped_same. exact H.
  - cbn [take drop fmap list_fmap app].
    replace (S (examined rest) - 1)%nat with (examined rest) by lia.
    split; [rewrite IH1 at 1; reflexivity |]. split.
    { apply Forall_cons. split; [apply popped_no_key | exact IH2]. }
    split.
    { destruct (examined rest) as [| k'] eqn:Hk; [apply Forall_nil; exact I |].
      cbn [take]. apply Forall_cons. split; [exact Hp |].
      replace (S k' - 1)%nat with k' in IH3 by lia. exact IH3. }
    split.
    + rewrite IH4. cbn [length]. split.
      * intros [Hk Hall]. split; [lia |].
        apply Forall_cons. split; [exact Hp | exact Hall].
      * intros [Hk Hall]. apply Forall_cons in Hall as [_ Hall].
        split; [lia | exact Hall].
    + split.
      * intros H. injection H as H1 H2. apply popped_same in H1.
        apply Forall_cons. split; [exact H1 | apply IH5; exact H2].
      * intros H. apply Forall_cons in H as [H1 H2]. f_equal.
        -- apply popped_same. exact H1.
        -- apply IH5. exact H2.
Qed.

(** A batch in which every record is rejected and two of the three lose
    their vendor key all the same. *)
Lemma filter_pops_examined_witness :
  fst (fetch_loop sample_rejected) = None /\
  snd (fetch_loop sample_rejected) =
    [ mkDevice (-70) ∅; mkDevice (-40) ∅;
      mkDevice (-40) {[ 6 := payload "other vendor" ]} ] /\
  snd (fetch_loop sample_rejected) <> sample_rejected.
Proof.
  split; [reflexivity |].
  assert (E : snd (fetch_loop sample_rejected) =
              [ mkDevice (-70) ∅; mkDevice (-40) ∅;
                mkDevice (-40) {[ 6 := payload "other vendor" ]} ]).
  { destruct (filter_pops_examined sample_rejected) as (-> & _).
    cbn [sample_rejected examined passes]. vm_compute. reflexivity. }
  split; [exact E |].
  rewrite E. intros H.
  apply (f_equal (fun l : list Device =>
                    match l with
                    | d :: _ => manufacturer_data d !! 76
                    | [] => None
                    end)) in H.
  vm_compute in H. discriminate.
Defined.

(** ** The retry decorator *)

Lemma calls_app (l1 l2 : list event) :
  calls (l1 ++ l2) = (calls l1 + calls l2)%nat.
Proof. unfold calls. rewrite List.filter_app, length_app. reflexivity. Qed.

Lemma delays_app (l1 l2 : list event) :
  delays (l1 ++ l2) = (delays l1 + delays l2)%nat.
Proof. unfold delays. rewrite List.filter_app, length_app. reflexivity. Qed.

Lemma stdout_app (l1 l2 : list event) :
  stdout (l1 ++ l2) = (stdout l1 ++ stdout l2)%list.
Proof. unfold stdout. apply omap_app. Qed.

Lemma failed_rounds_S (sleep_ms : Q) (k : nat) :
  failed_rounds sleep_ms (S k) =
    ([Call; Sleep (sleep_ms / 1000)%Q] ++ failed_rounds sleep_ms k)%list.
Proof. reflexivity. Qed.

Lemma failed_rounds_counts (sleep_ms : Q) (k : nat) :
  calls (failed_rounds sleep_ms k) = k /\
  delays (failed_rounds sleep_ms k) = k /\
  stdout (failed_rounds sleep_ms k) = [].
Proof.
  induction k as [| k (IH1 & IH2 & IH3)]; [repeat split |].
  rewrite failed_rounds_S, calls_app, delays_app, stdout_app, IH1, IH2, IH3.
  repeat split.
Qed.

Lemma sleep_seconds_nonneg (sleep_ms : Q) :
  (0 <= sleep_ms)%Q -> Qle_bool 0 (sleep_ms / 1000) = true.
Proof.
  intros H. apply Qle_bool_iff. unfold Qdiv.
  apply Qmult_le_0_compat; [exact H |]. apply Qinv_le_0_compat. discriminate.
Qed.

Section RetryFacts.

Context {E T : Type}.
Variable elapse : Q -> E -> E.
Variable sleep_ms : Q.
Variable f : E -> option T * E.
Hypothesis sleep_nonneg : (0 <= sleep_ms)%Q.

Let next := after_failed_attempt elapse sleep_ms f.

(** One attempt that returns [None]: a call, a sleep, and the rest of
    the loop in the next environment. *)
Lemma wrapper_loop_absent (n : nat) (e : E) (tr : list event) :
  fst (f e) = None ->
  wrapper_loop elapse sleep_ms f (S n) (mkWorld e tr) =
    wrapper_loop elapse sleep_ms f n
      (mkWorld (next e) (tr ++ [Call; Sleep (sleep_ms / 1000)%Q])).
Proof.
  intros Hf. cbn [wrapper_loop]. unfold io_bind at 1, call_f.
  cbn [env trace]. subst next. unfold after_failed_attempt.
  destruct (f e) as [val e'] eqn:Hfe. cbn [fst snd] in *. subst val.
  unfold io_bind, time_sleep, emit. cbn [env trace].
  rewrite (sleep_seconds_nonneg _ sleep_nonneg).
  rewrite <- app_assoc. reflexivity.
Qed.

(** One attempt that returns a value: a call, and the loop is left. *)
Lemma wrapper_loop_present (n : nat) (e : E) (tr : list event) (v : T) :
  fst (f e) = Some v ->
  wrapper_loop elapse sleep_ms f (S n) (mkWorld e tr) =
    (Ok (Some v), mkWorld (snd (f e)) (tr ++ [Call])).
Proof.
  intros Hf. cbn [wrapper_loop]. unfold io_bind, call_f.
  cbn [env trace].
  destruct (f e) as [val e'] eqn:Hfe. cbn [fst snd] in *. subst val.
  reflexivity.
Qed.

(** [k] attempts that return [None], one after the other. *)
Lemma wrapper_loop_absent_prefix (k n : nat) (e : E) (tr : list event) :
  (forall i, (i < k)%nat -> fst (f (Nat.iter i next e)) = None) ->
  wrapper_loop elapse sleep_ms f (k + n) (mkWorld e tr) =
    wrapper_loop elapse sleep_ms f n
      (mkWorld (Nat.iter k next e) (tr ++ failed_rounds sleep_ms k)).
Proof.
  revert e tr. induction k as [| k IH]; intros e tr Hnone.
  - cbn [Nat.iter Nat.add failed_rounds replicate concat].
    rewrite app_nil_r. reflexivity.
  - cbn [Nat.add]. rewrite wrapper_loop_absent by (apply (Hnone 0%nat); lia).
    rewrite IH.
    + rewrite Nat.iter_succ_r, failed_rounds_S, <- app_assoc. reflexivity.
    + intros i Hi. rewrite <- Nat.iter_succ_r. apply Hnone. lia.
Qed.

End RetryFacts.

(** C3, as the code has it. For positive [times] and a non-negative delay:
    a probe that returns [None] on its first [k] calls, [k < times], and a
    value on the next makes the wrapper return that value after exactly
    [k + 1] calls and [k] sleeps; a probe that returns [None] on every call
    makes it return [None] after exactly [times] calls and [times] sleeps,
    one after each attempt, the last included. *)
Theorem retry_on_none_counts {E T : Type} (elapse : Q -> E -> E)
  (times : Z) (sleep_ms : Q) (f : E -> option T * E) (e0 : E) :
  0 < times ->
  (0 <= sleep_ms)%Q ->
  let next := after_failed_attempt elapse sleep_ms f in
  let run := retry_on_none elapse times sleep_ms f (mkWorld e0 []) in
  (forall (k : nat) (v : T),
     Z.of_nat k < times ->
     (forall i, (i < k)%nat -> fst (f (Nat.iter i next e0)) = None) ->
     fst (f (Nat.iter k next e0)) = Some v ->
     fst run = Ok (Some v) /\
     calls (trace (snd run)) = (k + 1)%nat /\
     delays (trace (snd run)) = k) /\
  ((forall i, (i < Z.to_nat times)%nat ->
      fst (f (Nat.iter i next e0)) = None) ->
   fst run = Ok None /\
   calls (trace (snd run)) = Z.to_nat times /\
   delays (trace (snd run)) = Z.to_nat times).
Proof.
  intros Htimes Hsleep next run. subst run.
  unfold retry_on_none, wrapper.
  split.
  - intros k v Hk Hnone Hsome.
    replace (Z.to_nat times) with (k + S (Z.to_nat times - k - 1))%nat by lia.
    rewrite (wrapper_loop_absent_prefix elapse sleep_ms f Hsleep k _ e0 []
               Hnone).
    rewrite (wrapper_loop_present elapse sleep_ms f _ _ _ v Hsome).
    cbn [fst snd trace app]. rewrite calls_app, delays_app.
    destruct (failed_rounds_counts sleep_ms k) as (-> & -> & _).
    cbn. repeat split; lia.
  - intros Hnone.
    pose proof (wrapper_loop_absent_prefix elapse sleep_ms f Hsleep _ 0 e0 []
                  Hnone) as Hrun.
    rewrite Nat.add_0_r in Hrun. rewrite Hrun.
    cbn [wrapper_loop io_ret fst snd trace app].
    destruct (failed_rounds_counts sleep_ms (Z.to_nat times)) as (-> & -> & _).
    repeat split.
Qed.

Lemma retry_on_none_counts_witness :
  fst (retry_on_none steady 10 500 found_on_third (mkWorld 0%nat []))
    = Ok (Some 7%nat) /\
  calls (trace (snd (retry_on_none steady 10 500 found_on_third
                       (mkWorld 0%nat [])))) = 3%nat /\
  delays (trace (snd (retry_on_none steady 10 500 found_on_third
                        (mkWorld 0%nat [])))) = 2%nat.
Proof.
  assert (Htimes : 0 < 10) by lia.
  assert (Hsleep : (0 <= 500)%Q) by discriminate.
  destruct (retry_on_none_counts steady 10 500 found_on_third 0%nat
              Htimes Hsleep) as (H & _).
  apply (H 2%nat 7%nat).
  - lia.
  - intros i Hi. destruct i as [| [| i]]; [reflexivity | reflexivity | lia].
  - reflexivity.
Defined.

(** With one attempt and a probe that finds nothing, the wrapper calls the
    probe once and sleeps once: one sleep more than [times - 1]. *)
Lemma retry_sleeps_after_final_attempt :
  let run := retry_on_none still 1 500 never_found (mkWorld tt []) in
  fst run = Ok None /\
  calls (trace (snd run)) = Z.to_nat 1 /\
  delays (trace (snd run)) = 1%nat /\
  delays (trace (snd run)) <> Z.to_nat (1 - 1).
Proof. cbv zeta. vm_compute. repeat split; discriminate. Qed.

(** ** The program *)

Lemma hexlify_hex (data : bytes) :
  Forall (fun b => hex_value (chr b) <> None) (hexlify data).
Proof.
  induction data as [| b data IH]; [apply Forall_nil; exact I |].
  cbn [hexlify flat_map]. apply Forall_app. split; [| exact IH].
  unfold hexlify_byte.
  apply Forall_cons; split; [| apply Forall_cons; split; [| apply Forall_nil]].
  - destruct b; vm_compute; discriminate.
  - destruct b; vm_compute; discriminate.
  - exact I.
Qed.

Lemma fetch_loop_fst (devices : list Device) :
  fst (fetch_loop devices) = select_payload devices.
Proof.
  unfold select_payload.
  induction devices as [| d rest IH]; [reflexivity |].
  rewrite fetch_loop_cons. cbn [find].
  destruct (passes d); [reflexivity | exact IH].
Qed.

Lemma fetch_loop_payload (devices : list Device) (raw : bytes) :
  fst (fetch_loop devices) = Some raw ->
  length raw = 54%nat /\ Forall (fun b => hex_value (chr b) <> None) raw.
Proof.
  rewrite fetch_loop_fst. unfold select_payload.
  destruct (find passes devices) as [d |] eqn:Hfind; [| discriminate].
  apply find_some in Hfind as [_ Hp]. unfold passes in Hp.
  destruct (manufacturer_data d !! AIRPODS_MANUFACTURER) as [blob |];
    [| discriminate].
  cbn. intros H. injection H as <-.
  apply andb_true_iff in Hp as [_ Hlen]. apply Z.eqb_eq in Hlen.
  unfold AIRPODS_DATA_LENGTH in Hlen.
  split; [lia | apply hexlify_hex].
Qed.

Lemma decoders_total_on_hex (raw : bytes) :
  (16 <= length raw)%nat ->
  Forall (fun b => hex_value (chr b) <> None) raw ->
  (exists st, Airstatus.parse_airpods_data raw = Ok st /\
              dict_get "connected" st = Some (PBool true)) /\
  (exists st, Main.parse_airpods_data raw = Ok st /\
              dict_get "connected" st = Some (PBool true)).
Proof.
  intros Hlen Hhex.
  destruct (lookup_of_length raw 7) as [b7 H7]; [lia |].
  destruct (digit_at_hex raw 10 Hhex) as [n10 H10]; [lia |].
  destruct (digit_at_hex raw 12 Hhex) as [d12 H12]; [lia |].
  destruct (digit_at_hex raw 13 Hhex) as [d13 H13]; [lia |].
  destruct (digit_at_hex raw 14 Hhex) as [n14 H14]; [lia |].
  destruct (digit_at_hex raw 15 Hhex) as [d15 H15]; [lia |].
  rewrite (airstatus_parse_digits raw _ _ _ _ _ _ H7 H10 H12 H13 H14 H15).
  rewrite (main_parse_digits raw _ _ _ _ _ _ H7 H10 H12 H13 H14 H15).
  cbv zeta. split; eexists; split; reflexivity.
Qed.

(** The wrapper always returns, prints nothing, and returns only values
    that the probe produced. *)
Lemma wrapper_loop_returns {E T : Type} (elapse : Q -> E -> E)
  (sleep_ms : Q) (f : E -> option T * E) (n : nat) (w : World E) :
  (0 <= sleep_ms)%Q ->
  exists r w',
    wrapper_loop elapse sleep_ms f n w = (Ok r, w') /\
    stdout (trace w') = stdout (trace w) /\
    forall v, r = Some v -> exists e, fst (f e) = Some v.
Proof.
  intros Hsleep. revert w. induction n as [| n IH]; intros w.
  - exists None, w. repeat split. discriminate.
  - destruct w as [e tr]. destruct (f e) as [[v |] e'] eqn:Hfe.
    + exists (Some v), (mkWorld e' (tr ++ [Call])). split; [| split].
      * rewrite (wrapper_loop_present elapse sleep_ms f n e tr v)
          by (rewrite Hfe; reflexivity).
        rewrite Hfe. reflexivity.
      * cbn [trace]. rewrite stdout_app. cbn. apply app_nil_r.
      * intros v' Hv. injection Hv as <-. exists e. rewrite Hfe. reflexivity.
    + rewrite (wrapper_loop_absent elapse sleep_ms f Hsleep n e tr)
        by (rewrite Hfe; reflexivity).
      destruct (IH (mkWorld (after_failed_attempt elapse sleep_ms f e)
                      (tr ++ [Call; Sleep (sleep_ms / 1000)%Q])))
        as (r & w' & Hrun & Hout & Hval).
      exists r, w'. split; [exact Hrun |]. split; [| exact Hval].
      rewrite Hout. cbn [trace]. rewrite stdout_app. cbn. apply app_nil_r.
Qed.

Lemma fetch_airpods_raw_data_returns {E : Type}
  (discover : E -> list Device * E) (elapse : Q -> E -> E) (w : World E) :
  exists r w',
    fetch_airpods_raw_data discover elapse w = (Ok r, w') /\
    stdout (trace w') = stdout (trace w) /\
    forall raw, r = Some raw ->
      length raw = 54%nat /\ Forall (fun b => hex_value (chr b) <> None) raw.
Proof.
  assert (Hsleep : (0 <= 500)%Q) by discriminate.
  destruct (wrapper_loop_returns elapse 500 (fetch_once discover)
              (Z.to_nat 10) w Hsleep) as (r & w' & Hrun & Hout & Hval).
  exists r, w'. split; [exact Hrun |]. split; [exact Hout |].
  intros raw Hraw. destruct (Hval raw Hraw) as [e He].
  unfold fetch_once in He. destruct (discover e) as [devices e'].
  cbn [fst] in He. apply (fetch_loop_payload devices raw He).
Qed.

Lemma main_with_outcome {E : Type} (discover : E -> list Device * E)
  (elapse : Q -> E -> E) (parse_airpods_data : bytes -> result pyval)
  (e : E) :
  (forall raw,
     length raw = 54%nat ->
     Forall (fun b => hex_value (chr b) <> None) raw ->
     exists st, parse_airpods_data raw = Ok st /\
                dict_get "connected" st = Some (PBool true)) ->
  main_outcome parse_airpods_data
    (fst (fetch_airpods_raw_data discover elapse (mkWorld e [])))
    (fst (main_with discover elapse parse_airpods_data (mkWorld e [])))
    (stdout (trace (snd (main_with discover elapse parse_airpods_data
                           (mkWorld e []))))).
Proof.
  intros Hparse.
  destruct (fetch_airpods_raw_data_returns discover elapse (mkWorld e []))
    as (r & w' & Hrun & Hout & Hraw).
  unfold main_with, io_bind. rewrite Hrun. cbn [fst trace] in *.
  destruct r as [raw |]; cbn [main_outcome].
  - destruct (Hraw raw eq_refl) as [Hlen Hhex].
    destruct (Hparse raw Hlen Hhex) as (st & Hst & Hconn).
    exists st. unfold io_lift, print, emit. rewrite Hst.
    cbn [fst snd trace exit_status]. rewrite stdout_app, Hout.
    repeat split; assumption.
  - unfold print, exit, io_raise, emit.
    cbn [fst snd trace exit_status]. rewrite stdout_app, Hout.
    split; reflexivity.
Qed.

(** C7. Whatever the scans return, [main] prints exactly one line, a JSON
    object. When the retried scan returns [None] the line is the object
    with [connected] false and the exit status is 1; when it returns a
    payload the decoder returns a status, the line is that status as JSON,
    with [connected] true, and the exit status is 0. This holds for both
    files. *)
Theorem main_prints_one_object {E : Type} (discover : E -> list Device * E)
  (elapse : Q -> E -> E) (e : E) :
  let fetched := fst (fetch_airpods_raw_data discover elapse (mkWorld e [])) in
  main_outcome Airstatus.parse_airpods_data fetched
    (fst (airstatus_main discover elapse (mkWorld e [])))
    (stdout (trace (snd (airstatus_main discover elapse (mkWorld e []))))) /\
  main_outcome Main.parse_airpods_data fetched
    (fst (main_main discover elapse (mkWorld e [])))
    (stdout (trace (snd (main_main discover elapse (mkWorld e []))))).
Proof.
  cbv zeta. unfold airstatus_main, main_main.
  split; apply main_with_outcome; intros raw Hlen Hhex;
    apply decoders_total_on_hex; [lia | exact Hhex | lia | exact Hhex].
Qed.

(** Two runs of [main.py]: nothing in range, and a payload on the third
    scan. *)
Example main_run_disconnected :
  let run := main_main scripted_discover scripted_elapse
               (mkWorld [sample_rejected] []) in
  stdout (trace (snd run)) = [disconnected_line] /\
  exit_status (fst run) = 1 /\
  calls (trace (snd run)) = 10%nat /\
  delays (trace (snd run)) = 10%nat.
Proof. vm_compute. repeat split. Qed.

Example main_run_connected :
  let run := main_main scripted_discover scripted_elapse
               (mkWorld sample_scans []) in
  stdout (trace (snd run)) =
    [json_dumps
       (PDict
          [("connected", PBool true);
           ("charge",
             PDict [("left", PInt 50); ("right", PInt 60);
                    ("case", PInt 70)]);
           ("charging_left", PBool true);
           ("charging_right", PBool false);
           ("charging_case", PBool true);
           ("model", PStr "Airpods Pro")])] /\
  exit_status (fst run) = 0 /\
  calls (trace (snd run)) = 3%nat /\
  delays (trace (snd run)) = 2%nat.
Proof. vm_compute. repeat split. Qed.

(** * Further properties of the decoders *)

Ltac unfold_decoders :=
  unfold Airstatus.parse_airpods_data, Airstatus.maybe_flip,
    Airstatus.parse_battery_level, Main.parse_airpods_data, Main.is_flipped,
    Main.parse_battery_level, getitem, int16.

(** Case analysis along one run of a decoder. *)
Ltac walk_decoder :=
  repeat (cbn [bind];
          match goal with
          | |- context [match ?raw !! ?i with _ => _ end] =>
              destruct (raw !! i)
          | |- context [hex_value (chr ?x)] => destruct (hex_value (chr x))
          | |- context [?d <=? 10] => destruct (d <=? 10)
          | |- context [Z.land ?n 2 =? 0] => destruct (Z.land n 2 =? 0)
          end).

Lemma decoders_raise_only (raw : bytes) (e : exn) :
  Airstatus.parse_airpods_data raw = Raise e \/
  Main.parse_airpods_data raw = Raise e ->
  e = IndexError \/ e = ValueError.
Proof.
  intros [H | H]; revert H; unfold_decoders; walk_decoder; cbn [bind];
    intros H; try discriminate H; injection H as <-; auto.
Qed.

Lemma model_of_names (b : byte) : In (model_of b) model_names.
Proof.
  unfold model_of, model_table, table_get, model_names.
  repeat match goal with
  | |- context [String.eqb ?x ?y] => destruct (String.eqb x y)
  end; cbn; auto 10.
Qed.

(** The decoders look at six bytes only: two payloads, of any lengths,
    that hold the same bytes (or no byte) at indices 7, 10, 12, 13, 14 and
    15 decode to the same status or raise the same exception. *)
Theorem decoders_read_six_bytes (raw raw' : bytes) :
  (forall i, In i indices_read -> raw !! i = raw' !! i) ->
  Airstatus.parse_airpods_data raw = Airstatus.parse_airpods_data raw' /\
  Main.parse_airpods_data raw = Main.parse_airpods_data raw'.
Proof.
  intros H. unfold_decoders.
  rewrite !(H 7%nat), !(H 10%nat), !(H 12%nat), !(H 13%nat), !(H 14%nat),
    !(H 15%nat) by (cbn; auto 10).
  split; reflexivity.
Qed.

Lemma decoders_read_six_bytes_witness :
  Airstatus.parse_airpods_data (payload "0719010e20206557")
    = Airstatus.parse_airpods_data sample_payload /\
  Main.parse_airpods_data (payload "0719010e20206557")
    = Main.parse_airpods_data sample_payload.
Proof.
  apply decoders_read_six_bytes. intros i Hi. cbn in Hi.
  destruct Hi as [<- | [<- | [<- | [<- | [<- | [<- | []]]]]]]; reflexivity.
Defined.

(** A decoder returns a status exactly when the payload has a byte at
    index 7 and a hex digit, of either case, at indices 10, 12, 13, 14 and
    15; the two files return on the same payloads. *)
Theorem decoders_return_iff_readable (raw : bytes) :
  ((exists st, Airstatus.parse_airpods_data raw = Ok st) <-> readable raw) /\
  ((exists st, Main.parse_airpods_data raw = Ok st) <-> readable raw).
Proof.
  split; split.
  - intros [st H]. exact (airstatus_parse_inv raw st H).
  - intros (b7 & n10 & d12 & d13 & n14 & d15 & H7 & H10 & H12 & H13 & H14 & H15).
    rewrite (airstatus_parse_digits raw _ _ _ _ _ _ H7 H10 H12 H13 H14 H15).
    eexists. reflexivity.
  - intros [st H]. exact (main_parse_inv raw st H).
  - intros (b7 & n10 & d12 & d13 & n14 & d15 & H7 & H10 & H12 & H13 & H14 & H15).
    rewrite (main_parse_digits raw _ _ _ _ _ _ H7 H10 H12 H13 H14 H15).
    eexists. reflexivity.
Qed.

(** A payload shorter than 16 bytes never decodes: each decoder raises
    [IndexError] or [ValueError], and [IndexError] when the payload has at
    most 13 bytes. *)
Theorem short_payload_raises (raw : bytes) :
  (length raw < 16)%nat ->
  (Airstatus.parse_airpods_data raw = Raise IndexError \/
   Airstatus.parse_airpods_data raw = Raise ValueError) /\
  (Main.parse_airpods_data raw = Raise IndexError \/
   Main.parse_airpods_data raw = Raise ValueError) /\
  ((length raw <= 13)%nat ->
   Airstatus.parse_airpods_data raw = Raise IndexError /\
   Main.parse_airpods_data raw = Raise IndexError).
Proof.
  intros Hlen.
  assert (Hno : ~ readable raw).
  { intros (_ & _ & _ & _ & _ & d15 & _ & _ & _ & _ & _ & H15).
    destruct (digit_at_lookup _ _ _ H15) as (b & Hb & _).
    apply lookup_lt_Some in Hb. lia. }
  split; [| split].
  - destruct (Airstatus.parse_airpods_data raw) as [st | e] eqn:H.
    + exfalso. apply Hno. exact (airstatus_parse_inv raw st H).
    + destruct (decoders_raise_only raw e (or_introl H)) as [-> | ->]; auto.
  - destruct (Main.parse_airpods_data raw) as [st | e] eqn:H.
    + exfalso. apply Hno. exact (main_parse_inv raw st H).
    + destruct (decoders_raise_only raw e (or_intror H)) as [-> | ->]; auto.
  - intros H13.
    assert (L14 : raw !! 14%nat = None) by (apply lookup_ge_None; lia).
    assert (L13 : raw !! 13%nat = None) by (apply lookup_ge_None; lia).
    unfold_decoders. rewrite L14, L13.
    destruct (raw !! 7%nat); split; reflexivity.
Qed.

Lemma short_payload_raises_witness :
  Airstatus.parse_airpods_data (payload "0719010e2020") = Raise IndexError /\
  Main.parse_airpods_data (payload "0719010e2020") = Raise IndexError.
Proof.
  assert (H16 : (length (payload "0719010e2020") < 16)%nat) by (cbn; lia).
  assert (H13 : (length (payload "0719010e2020") <= 13)%nat) by (cbn; lia).
  destruct (short_payload_raises (payload "0719010e2020") H16) as (_ & _ & H).
  exact (H H13).
Defined.

Ltac bytes_of_bound raw Hlen :=
  destruct (lookup_of_length raw 10) as [?b ?L]; [lia |];
  destruct (lookup_of_length raw 12) as [?b ?L]; [lia |];
  destruct (lookup_of_length raw 13) as [?b ?L]; [lia |];
  destruct (lookup_of_length raw 14) as [?b ?L]; [lia |];
  destruct (lookup_of_length raw 15) as [?b ?L]; [lia |].

(** Apart from the model character, the decoders use the payload only
    through the values of its hex digits: two payloads of at least 16 bytes
    with the same byte at index 7 and the same digit values at indices 10,
    12, 13, 14 and 15 decode alike, so an uppercase digit decodes like its
    lowercase form, and two characters that are both no hex digit raise
    alike. *)
Theorem decoders_read_digit_values (raw raw' : bytes) :
  (16 <= length raw)%nat -> (16 <= length raw')%nat ->
  raw !! 7%nat = raw' !! 7%nat ->
  (forall i, In i digit_indices -> digit_at raw i = digit_at raw' i) ->
  Airstatus.parse_airpods_data raw = Airstatus.parse_airpods_data raw' /\
  Main.parse_airpods_data raw = Main.parse_airpods_data raw'.
Proof.
  intros Hlen Hlen' H7 H.
  pose proof (H 10%nat) as E10. pose proof (H 12%nat) as E12.
  pose proof (H 13%nat) as E13. pose proof (H 14%nat) as E14.
  pose proof (H 15%nat) as E15. clear H.
  unfold digit_at in *.
  bytes_of_bound raw Hlen. bytes_of_bound raw' Hlen'.
  unfold_decoders. rewrite H7.
  repeat match goal with
  | L : _ !! _ = Some _ |- _ =>
      rewrite L in *; clear L
  end.
  cbn [bind].
  rewrite (E10 ltac:(cbn; auto 10)), (E12 ltac:(cbn; auto 10)),
    (E13 ltac:(cbn; auto 10)), (E14 ltac:(cbn; auto 10)),
    (E15 ltac:(cbn; auto 10)).
  split; reflexivity.
Qed.

Lemma decoders_read_digit_values_witness :
  Airstatus.parse_airpods_data sample_upper
    = Airstatus.parse_airpods_data sample_lower /\
  Main.parse_airpods_data sample_upper
    = Main.parse_airpods_data sample_lower.
Proof.
  assert (Hu : (16 <= length sample_upper)%nat) by (cbn; lia).
  assert (Hl : (16 <= length sample_lower)%nat) by (cbn; lia).
  apply (decoders_read_digit_values sample_upper sample_lower Hu Hl eq_refl).
  intros i Hi. cbn in Hi.
  destruct Hi as [<- | [<- | [<- | [<- | [<- | []]]]]]; reflexivity.
Defined.

(** Every status that [parse_airpods_data] of [airstatus.py] returns has
    the four keys connected, model, charge and charging, in that order,
    with [connected] true and one of the five model names; each charging
    entry is a boolean, and each charge entry is [None] or a multiple of ten
    from 0 to 100. *)
Theorem airstatus_status_well_formed (raw : bytes) (st : pyval) :
  Airstatus.parse_airpods_data raw = Ok st ->
  dict_keys st = ["connected"; "model"; "charge"; "charging"] /\
  dict_get "connected" st = Some (PBool true) /\
  (exists name, dict_get "model" st = Some (PStr name) /\ In name model_names) /\
  forall pos, In pos ["left"; "right"; "case"] ->
    (exists flag, charging_nested pos st = Some (PBool flag)) /\
    (charge_of pos st = Some PNone \/
     exists d, 0 <= d <= 10 /\ charge_of pos st = Some (PInt (d * 10))).
Proof.
  intros Hst. decoded_airstatus Hst.
  pose proof (digit_at_range _ _ _ H12) as R12.
  pose proof (digit_at_range _ _ _ H13) as R13.
  pose proof (digit_at_range _ _ _ H15) as R15.
  assert (Hlevel : forall d, 0 <= d <= 15 ->
            Some (if d <=? 10 then PInt (d * 10) else PNone) = Some PNone \/
            exists d', 0 <= d' <= 10 /\
              Some (if d <=? 10 then PInt (d * 10) else PNone)
                = Some (PInt (d' * 10))).
  { intros d Hd. destruct (Z.leb_spec d 10); [right | left; reflexivity].
    exists d. split; [lia | reflexivity]. }
  do 2 (split; [reflexivity |]).
  split; [eexists; split; [reflexivity | apply model_of_names] |].
  intros pos Hpos. cbn in Hpos.
  destruct Hpos as [<- | [<- | [<- | []]]];
    (split; [eexists; reflexivity |]);
    unfold charge_of;
    cbn [dict_path dict_get assoc String.eqb Ascii.eqb Bool.eqb];
    destruct (Z.land n10 2 =? 0); apply Hlevel; assumption.
Qed.

Lemma airstatus_status_well_formed_witness :
  dict_keys
    (PDict
       [("connected", PBool true); ("model", PStr "Airpods Pro");
        ("charge",
          PDict [("case", PInt 70); ("right", PInt 60); ("left", PInt 50)]);
        ("charging",
          PDict [("case", PBool true); ("right", PBool false);
                 ("left", PBool true)])])
  = ["connected"; "model"; "charge"; "charging"].
Proof.
  apply (airstatus_status_well_formed sample_payload _ eq_refl).
Defined.

(** Every status that [parse_airpods_data] of [main.py] returns has the
    six keys connected, charge, charging_left, charging_right,
    charging_case and model, in that order, with [connected] true and one
    of the five model names; each charging entry is a boolean, and each
    charge entry is an integer, [-1] or a multiple of ten from 0 to 100,
    never [None]. *)
Theorem main_status_well_formed (raw : bytes) (st : pyval) :
  Main.parse_airpods_data raw = Ok st ->
  dict_keys st = ["connected"; "charge"; "charging_left"; "charging_right";
                  "charging_case"; "model"] /\
  dict_get "connected" st = Some (PBool true) /\
  (exists name, dict_get "model" st = Some (PStr name) /\ In name model_names) /\
  forall pos, In pos ["left"; "right"; "case"] ->
    (exists flag, charging_flat pos st = Some (PBool flag)) /\
    (charge_of pos st = Some (PInt (-1)) \/
     exists d, 0 <= d <= 10 /\ charge_of pos st = Some (PInt (d * 10))).
Proof.
  intros Hst. decoded_main Hst.
  pose proof (digit_at_range _ _ _ H12) as R12.
  pose proof (digit_at_range _ _ _ H13) as R13.
  pose proof (digit_at_range _ _ _ H15) as R15.
  assert (Hlevel : forall d, 0 <= d <= 15 ->
            Some (PInt (if d <=? 10 then d * 10 else -1)) = Some (PInt (-1)) \/
            exists d', 0 <= d' <= 10 /\
              Some (PInt (if d <=? 10 then d * 10 else -1))
                = Some (PInt (d' * 10))).
  { intros d Hd. destruct (Z.leb_spec d 10); [right | left; reflexivity].
    exists d. split; [lia | reflexivity]. }
  do 2 (split; [reflexivity |]).
  split; [eexists; split; [reflexivity | apply model_of_names] |].
  intros pos Hpos. cbn in Hpos.
  destruct Hpos as [<- | [<- | [<- | []]]];
    (split; [eexists; reflexivity |]);
    unfold charge_of;
    cbn [dict_path dict_get assoc String.eqb Ascii.eqb Bool.eqb];
    destruct (Z.land n10 2 =? 0); apply Hlevel; assumption.
Qed.

Lemma main_status_well_formed_witness :
  dict_get "connected"
    (PDict
       [("connected", PBool true);
        ("charge",
          PDict [("left", PInt 50); ("right", PInt 60); ("case", PInt 70)]);
        ("charging_left", PBool true);
        ("charging_right", PBool false);
        ("charging_case", PBool true);
        ("model", PStr "Airpods Pro")])
  = Some (PBool true).
Proof.
  apply (main_status_well_formed sample_payload _ eq_refl).
Defined.

(** Both files decide the orientation alike: [maybe_flip] of
    [airstatus.py] swaps its two values exactly when [is_flipped] of
    [main.py] is true and raises what [is_flipped] raises; and applying
    [maybe_flip] to the pair it returned gives back the original pair. *)
Theorem maybe_flip_is_flipped (raw : bytes) (left right : pyval) :
  Airstatus.maybe_flip raw left right =
    (let! flip := Main.is_flipped raw in
     Ok (if flip then [("right", left); ("left", right)]
         else [("right", right); ("left", left)])) /\
  (forall left' right',
     Airstatus.maybe_flip raw left right
       = Ok [("right", right'); ("left", left')] ->
     Airstatus.maybe_flip raw left' right'
       = Ok [("right", right); ("left", left)]).
Proof.
  unfold Airstatus.maybe_flip, Main.is_flipped, getitem, int16.
  destruct (raw !! 10%nat) as [b |]; cbn [bind]; [| split; [reflexivity |]].
  - destruct (hex_value (chr b)) as [n |]; cbn [bind];
      [| split; [reflexivity | discriminate]].
    destruct (Z.land n 2 =? 0); (split; [reflexivity |]);
      intros left' right' H; injection H as <- <-; reflexivity.
  - discriminate.
Qed.

(** ** From the blob to the payload *)

Lemma hexlify_length (data : bytes) :
  length (hexlify data) = (2 * length data)%nat.
Proof.
  induction data as [| b data IH]; [reflexivity |].
  unfold hexlify in *. cbn [flat_map hexlify_byte app length].
  rewrite IH. lia.
Qed.

Lemma hexlify_lookup (data : bytes) (i : nat) (b : byte) :
  data !! i = Some b ->
  hexlify data !! (2 * i)%nat
    = Some (hex_char (N.shiftr (Byte.to_N b) 4)) /\
  hexlify data !! (2 * i + 1)%nat
    = Some (hex_char (N.land (Byte.to_N b) 15)).
Proof.
  revert i. induction data as [| b0 data IH]; intros i Hb; [discriminate |].
  destruct i as [| i].
  - injection Hb as ->. split; reflexivity.
  - cbn [lookup list_lookup] in Hb. destruct (IH i Hb) as [IH1 IH2].
    replace (2 * S i)%nat with (S (S (2 * i))) by lia.
    replace (S (S (2 * i)) + 1)%nat with (S (S (2 * i + 1))) by lia.
    split; [exact IH1 | exact IH2].
Qed.

Lemma hex_char_nibbles (b : byte) :
  hex_value (chr (hex_char (N.shiftr (Byte.to_N b) 4))) = Some (hi_nibble b) /\
  hex_value (chr (hex_char (N.land (Byte.to_N b) 15))) = Some (lo_nibble b).
Proof. destruct b; split; vm_compute; reflexivity. Qed.

Lemma hexlify_digit_at (data : bytes) (i : nat) (b : byte) :
  data !! i = Some b ->
  digit_at (hexlify data) (2 * i) = Some (hi_nibble b) /\
  digit_at (hexlify data) (2 * i + 1) = Some (lo_nibble b).
Proof.
  intros Hb. destruct (hexlify_lookup data i b Hb) as [H1 H2].
  unfold digit_at. rewrite H1, H2. apply hex_char_nibbles.
Qed.

(** [hexlify] writes two characters per byte, and the decoder's digit
    reading recovers the byte from them: the digit at index [2 i] of the
    encoding is the high nibble of byte [i] and the digit at [2 i + 1] its
    low nibble, so the encoding loses nothing. *)
Theorem hexlify_digits (data : bytes) (i : nat) (b : byte) :
  data !! i = Some b ->
  length (hexlify data) = (2 * length data)%nat /\
  digit_at (hexlify data) (2 * i) = Some (hi_nibble b) /\
  digit_at (hexlify data) (2 * i + 1) = Some (lo_nibble b) /\
  16 * hi_nibble b + lo_nibble b = Z.of_N (Byte.to_N b).
Proof.
  intros Hb. destruct (hexlify_digit_at data i b Hb) as [V1 V2].
  split; [apply hexlify_length |].
  split; [exact V1 |]. split; [exact V2 |].
  unfold hi_nibble, lo_nibble.
  pose proof (Z.div_mod (Z.of_N (Byte.to_N b)) 16). lia.
Qed.

Lemma hexlify_digits_witness :
  digit_at (hexlify sample_blob) 7 = Some (lo_nibble x0e).
Proof.
  destruct (hexlify_digits sample_blob 3 x0e eq_refl) as (_ & _ & H & _).
  exact H.
Defined.

Lemma model_of_nibble (b : byte) :
  let model := model_of (hex_char (N.land (Byte.to_N b) 15)) in
  (lo_nibble b = 2 -> model = "Airpods 1") /\
  (lo_nibble b = 15 -> model = "Airpods 2") /\
  (lo_nibble b = 14 -> model = "Airpods Pro") /\
  (lo_nibble b = 10 -> model = "Airpods Max") /\
  (lo_nibble b <> 2 -> lo_nibble b <> 15 -> lo_nibble b <> 14 ->
   lo_nibble b <> 10 -> model = "Unknown").
Proof.
  destruct b; vm_compute; repeat split; intros;
    first [reflexivity | discriminate | exfalso; auto].
Qed.

(** The layout of the blob, as the scan and the decoder together read it.
    For a blob with bytes 3, 5, 6 and 7, the decoders return on its hex
    encoding: the model comes from the low nibble of byte 3 (2, 15, 14 and
    10 are the four known models), the orientation from the high nibble of
    byte 5, the right-raw and left-raw levels from the high and low nibble
    of byte 6, the charging flags from the high nibble of byte 7 and the
    case level from its low nibble. *)
Theorem blob_layout (blob : bytes) (b3 b5 b6 b7 : byte) :
  blob !! 3%nat = Some b3 -> blob !! 5%nat = Some b5 ->
  blob !! 6%nat = Some b6 -> blob !! 7%nat = Some b7 ->
  let model := model_of (hex_char (N.land (Byte.to_N b3) 15)) in
  let flip := Z.land (hi_nibble b5) 2 =? 0 in
  let right_raw := hi_nibble b6 in
  let left_raw := lo_nibble b6 in
  let flags := hi_nibble b7 in
  let none_past_10 d := if d <=? 10 then PInt (d * 10) else PNone in
  let minus1_past_10 d := PInt (if d <=? 10 then d * 10 else -1) in
  Airstatus.parse_airpods_data (hexlify blob) =
    Ok (PDict
          [("connected", PBool true);
           ("model", PStr model);
           ("charge",
             PDict
               [("case", none_past_10 (lo_nibble b7));
                ("right", none_past_10 (if flip then left_raw else right_raw));
                ("left", none_past_10 (if flip then right_raw else left_raw))]);
           ("charging",
             PDict [("case", PBool (bit_set flags 4));
                    ("right", PBool (bit_set flags (if flip then 1 else 2)));
                    ("left", PBool (bit_set flags (if flip then 2 else 1)))])])
  /\
  Main.parse_airpods_data (hexlify blob) =
    Ok (PDict
          [("connected", PBool true);
           ("charge",
             PDict
               [("left", minus1_past_10 (if flip then right_raw else left_raw));
                ("right",
                  minus1_past_10 (if flip then left_raw else right_raw));
                ("case", minus1_past_10 (lo_nibble b7))]);
           ("charging_left", PBool (bit_set flags (if flip then 2 else 1)));
           ("charging_right", PBool (bit_set flags (if flip then 1 else 2)));
           ("charging_case", PBool (bit_set flags 4));
           ("model", PStr model)])
  /\
  (lo_nibble b3 = 2 -> model = "Airpods 1") /\
  (lo_nibble b3 = 15 -> model = "Airpods 2") /\
  (lo_nibble b3 = 14 -> model = "Airpods Pro") /\
  (lo_nibble b3 = 10 -> model = "Airpods Max") /\
  (lo_nibble b3 <> 2 -> lo_nibble b3 <> 15 -> lo_nibble b3 <> 14 ->
   lo_nibble b3 <> 10 -> model = "Unknown").
Proof.
  intros H3 H5 H6 H7. cbv zeta.
  destruct (hexlify_lookup blob 3 b3 H3) as [_ L7].
  destruct (hexlify_digit_at blob 5 b5 H5) as (D10 & _).
  destruct (hexlify_digit_at blob 6 b6 H6) as (D12 & D13).
  destruct (hexlify_digit_at blob 7 b7 H7) as (D14 & D15).
  split; [| split].
  - exact (airstatus_parse_digits (hexlify blob) _ _ _ _ _ _
             L7 D10 D12 D13 D14 D15).
  - exact (main_parse_digits (hexlify blob) _ _ _ _ _ _
             L7 D10 D12 D13 D14 D15).
  - exact (model_of_nibble b3).
Qed.

Lemma blob_layout_witness :
  Main.parse_airpods_data (hexlify sample_blob) =
    Ok (PDict
          [("connected", PBool true);
           ("charge",
             PDict [("left", PInt 50); ("right", PInt 60);
                    ("case", PInt 70)]);
           ("charging_left", PBool true);
           ("charging_right", PBool false);
           ("charging_case", PBool true);
           ("model", PStr "Airpods Pro")]).
Proof.
  destruct (blob_layout sample_blob x0e x20 x65 x57
              eq_refl eq_refl eq_refl eq_refl) as (_ & H & _).
  exact H.
Defined.

(** * Further properties of the advertisement filter *)

Lemma passes_iff (d : Device) :
  passes d = true <->
  exists blob,
    manufacturer_data d !! AIRPODS_MANUFACTURER = Some blob /\
    MIN_RSSI <= rssi d /\ length blob = 27%nat.
Proof.
  unfold passes, AIRPODS_DATA_LENGTH. split.
  - destruct (manufacturer_data d !! AIRPODS_MANUFACTURER) as [blob |];
      [| discriminate].
    intros H. apply andb_true_iff in H as [Hr Hl].
    apply Z.leb_le in Hr. apply Z.eqb_eq in Hl. rewrite hexlify_length in Hl.
    exists blob. repeat split; [exact Hr | lia].
  - intros (blob & -> & Hr & Hl). apply andb_true_iff. split.
    + apply Z.leb_le. exact Hr.
    + apply Z.eqb_eq. rewrite hexlify_length. lia.
Qed.

Lemma popped_fails (d : Device) : passes (popped d) = false.
Proof. unfold passes. rewrite popped_no_key. reflexivity. Qed.

(** The scan returns a payload exactly when some record of the batch has
    a 27-byte blob under vendor 76 and a signal strength of at least -60;
    the payload it returns is the 54-character hex encoding of such a
    record's blob. *)
Theorem filter_finds_qualifying (devices : list Device) :
  ((exists raw, fst (fetch_loop devices) = Some raw) <->
   exists d blob,
     In d devices /\
     manufacturer_data d !! AIRPODS_MANUFACTURER = Some blob /\
     MIN_RSSI <= rssi d /\ length blob = 27%nat) /\
  (forall raw,
     fst (fetch_loop devices) = Some raw ->
     length raw = 54%nat /\
     exists d blob,
       In d devices /\
       manufacturer_data d !! AIRPODS_MANUFACTURER = Some blob /\
       MIN_RSSI <= rssi d /\ length blob = 27%nat /\ raw = hexlify blob).
Proof.
  rewrite fetch_loop_fst. unfold select_payload.
  destruct (find passes devices) as [d |] eqn:Hfind.
  - apply find_some in Hfind as [Hin Hp].
    destruct (proj1 (passes_iff d) Hp) as (blob & Hb & Hr & Hl).
    rewrite Hb. cbn [fmap option_fmap option_map]. split.
    + split; [intros _; exists d, blob; auto | intros _; eauto].
    + intros raw H. injection H as <-. split.
      * rewrite hexlify_length. lia.
      * exists d, blob. auto 10.
  - split; [| discriminate]. split; [intros [raw H]; discriminate |].
    intros (d & blob & Hin & Hb & Hr & Hl). exfalso.
    pose proof (find_none _ _ Hfind d Hin) as Hp.
    rewrite (proj2 (passes_iff d)) in Hp by eauto. discriminate.
Qed.

Lemma filter_finds_qualifying_witness :
  length (hexlify sample_blob) = 54%nat.
Proof.
  destruct (filter_finds_qualifying sample_two_matches) as [_ H].
  destruct (H (hexlify sample_blob) eq_refl) as [Hlen _].
  exact Hlen.
Defined.

(** A second scan of the batch as the first scan left it cannot return
    the record the first one returned, whose vendor key is gone: it returns
    what a scan of the records after the examined ones returns, so [None]
    when the first scan found nothing. *)
Theorem filter_second_scan (devices : list Device) :
  fst (fetch_loop (snd (fetch_loop devices)))
    = select_payload (drop (examined devices) devices) /\
  (fst (fetch_loop devices) = None ->
   fst (fetch_loop (snd (fetch_loop devices))) = None).
Proof.
  assert (H : fst (fetch_loop (snd (fetch_loop devices)))
              = select_payload (drop (examined devices) devices)).
  { induction devices as [| d rest IH]; [reflexivity |].
    rewrite fetch_loop_cons. cbn [examined].
    destruct (passes d) eqn:Hp; cbn [snd drop].
    - rewrite fetch_loop_cons, popped_fails. cbn [fst].
      apply fetch_loop_fst.
    - rewrite fetch_loop_cons, popped_fails. cbn [fst]. exact IH. }
  split; [exact H |].
  rewrite H. clear H. rewrite fetch_loop_fst. unfold select_payload.
  induction devices as [| d rest IH]; [reflexivity |].
  cbn [find examined]. destruct (passes d) eqn:Hp.
  - destruct (proj1 (passes_iff d) Hp) as (blob & -> & _). discriminate.
  - cbn [drop]. exact IH.
Qed.

Lemma filter_second_scan_witness :
  fst (fetch_loop (snd (fetch_loop sample_rejected))) = None.
Proof.
  destruct (filter_second_scan sample_rejected) as [_ H].
  apply H. reflexivity.
Defined.

(** The scan changes nothing but the vendor-76 key: the batch keeps its
    length and order, and every record keeps its signal strength and its
    blobs under all other vendor identifiers. *)
Theorem filter_keeps_other_data (devices : list Device) :
  length (snd (fetch_loop devices)) = length devices /\
  forall i d,
    devices !! i = Some d ->
    exists d',
      snd (fetch_loop devices) !! i = Some d' /\
      rssi d' = rssi d /\
      forall key,
        key <> AIRPODS_MANUFACTURER ->
        manufacturer_data d' !! key = manufacturer_data d !! key.
Proof.
  assert (Hpop : forall d key,
            key <> AIRPODS_MANUFACTURER ->
            manufacturer_data (popped d) !! key = manufacturer_data d !! key).
  { intros d key Hkey. unfold popped. cbn [manufacturer_data].
    apply lookup_delete_ne. congruence. }
  induction devices as [| d0 rest (IHlen & IH)].
  { split; [reflexivity | intros i d H; discriminate]. }
  rewrite fetch_loop_cons.
  destruct (passes d0); cbn [snd length].
  - split; [reflexivity |]. intros [| i] d H.
    + injection H as <-. exists (popped d0). repeat split. apply Hpop.
    + exists d. repeat split. exact H.
  - split; [rewrite IHlen; reflexivity |]. intros [| i] d H.
    + injection H as <-. exists (popped d0). repeat split. apply Hpop.
    + exact (IH i d H).
Qed.

Lemma filter_keeps_other_data_witness :
  exists d',
    snd (fetch_loop sample_two_matches) !! 1%nat = Some d' /\
    rssi d' = -60 /\
    manufacturer_data d' !! 6 = Some (payload "other").
Proof.
  destruct (filter_keeps_other_data sample_two_matches) as [_ H].
  destruct (H 1%nat _ eq_refl) as (d' & Hd & Hr & Hk).
  exists d'. split; [exact Hd |]. split; [exact Hr |].
  rewrite Hk by discriminate. reflexivity.
Defined.

(** * Further properties of the retry decorator *)

Lemma sleep_seconds_negative (sleep_ms : Q) :
  (sleep_ms < 0)%Q -> Qle_bool 0 (sleep_ms / 1000) = false.
Proof.
  intros H. destruct (Qle_bool 0 (sleep_ms / 1000)) eqn:E; [| reflexivity].
  exfalso. apply Qle_bool_iff in E. destruct sleep_ms as [a b].
  unfold Qle, Qlt, Qdiv, Qmult, Qinv in *. cbn in *. lia.
Qed.

(** One iteration of the loop, whatever the probe and the delay. *)
Lemma wrapper_loop_S {E T : Type} (elapse : Q -> E -> E) (sleep_ms : Q)
  (f : E -> option T * E) (n : nat) (w : World E) :
  wrapper_loop elapse sleep_ms f (S n) w =
    match f (env w) with
    | (Some v, e) => (Ok (Some v), mkWorld e (trace w ++ [Call]))
    | (None, e) =>
        if Qle_bool 0 (sleep_ms / 1000)
        then wrapper_loop elapse sleep_ms f n
               (mkWorld (elapse (sleep_ms / 1000)%Q e)
                  ((trace w ++ [Call]) ++ [Sleep (sleep_ms / 1000)%Q]))
        else (Raise ValueError, mkWorld e (trace w ++ [Call]))
    end.
Proof.
  cbn [wrapper_loop]. unfold io_bind at 1, call_f.
  destruct (f (env w)) as [[v |] e]; [reflexivity |].
  unfold io_bind, time_sleep, emit. cbn [env trace].
  destruct (Qle_bool 0 (sleep_ms / 1000)); reflexivity.
Qed.

(** With an attempt budget of zero or less the wrapper returns [None] at
    once: it never calls the probe and never sleeps, whatever the delay. *)
Theorem retry_no_attempts {E T : Type} (elapse : Q -> E -> E) (times : Z)
  (sleep_ms : Q) (f : E -> option T * E) (w : World E) :
  times <= 0 ->
  retry_on_none elapse times sleep_ms f w = (Ok None, w).
Proof.
  intros H. unfold retry_on_none, wrapper.
  replace (Z.to_nat times) with 0%nat by lia. reflexivity.
Qed.

Lemma retry_no_attempts_witness :
  retry_on_none steady (-3) 500 found_on_third (mkWorld 0%nat [])
    = (Ok None, mkWorld 0%nat []).
Proof. apply retry_no_attempts. lia. Defined.

(** With a negative delay the wrapper cannot retry: when the first call
    of the probe returns [None], [time.sleep] raises [ValueError] and the
    wrapper raises it after that single call; when the first call returns a
    value, the delay is never used and the value is returned. *)
Theorem retry_negative_delay {E T : Type} (elapse : Q -> E -> E) (times : Z)
  (sleep_ms : Q) (f : E -> option T * E) (w : World E) :
  0 < times ->
  (sleep_ms < 0)%Q ->
  retry_on_none elapse times sleep_ms f w =
    (match fst (f (env w)) with
     | Some v => Ok (Some v)
     | None => Raise ValueError
     end,
     mkWorld (snd (f (env w))) (trace w ++ [Call])).
Proof.
  intros Htimes Hneg. unfold retry_on_none, wrapper.
  replace (Z.to_nat times) with (S (Z.to_nat times - 1)) by lia.
  rewrite wrapper_loop_S, (sleep_seconds_negative sleep_ms Hneg).
  destruct (f (env w)) as [[v |] e]; reflexivity.
Qed.

Lemma retry_negative_delay_witness :
  retry_on_none steady 10 (-500) found_on_third (mkWorld 0%nat [])
    = (Raise ValueError, mkWorld 1%nat [Call]).
Proof.
  assert (Htimes : 0 < 10) by lia.
  assert (Hneg : (-500 < 0)%Q) by reflexivity.
  apply (retry_negative_delay steady 10 (-500) found_on_third
           (mkWorld 0%nat []) Htimes Hneg).
Defined.

(** What a run of the loop with a non-negative delay looks like, for any
    probe: some number [k] of attempts that returned [None], each followed
    by a sleep, then either the call that returned the value, with nothing
    after it, or nothing when all [n] attempts are used up. *)
Lemma wrapper_loop_shape {E T : Type} (elapse : Q -> E -> E) (sleep_ms : Q)
  (f : E -> option T * E) (n : nat) (w : World E) :
  (0 <= sleep_ms)%Q ->
  exists k r w',
    wrapper_loop elapse sleep_ms f n w = (Ok r, w') /\
    trace w' =
      (trace w ++ failed_rounds sleep_ms k
         ++ match r with Some _ => [Call] | None => [] end)%list /\
    match r with
    | Some v => (k < n)%nat /\ exists e, f e = (Some v, env w')
    | None => k = n
    end.
Proof.
  intros Hsleep. revert w. induction n as [| n IH]; intros w.
  - exists 0%nat, None, w. cbn. rewrite app_nil_r. auto.
  - rewrite wrapper_loop_S, (sleep_seconds_nonneg sleep_ms Hsleep).
    destruct (f (env w)) as [[v |] e] eqn:Hf.
    + exists 0%nat, (Some v), (mkWorld e (trace w ++ [Call])).
      cbn. repeat split; [lia | eauto].
    + destruct (IH (mkWorld (elapse (sleep_ms / 1000)%Q e)
                      ((trace w ++ [Call]) ++ [Sleep (sleep_ms / 1000)%Q])))
        as (k & r & w' & Hrun & Htr & Hr).
      exists (S k), r, w'. split; [exact Hrun |]. split.
      * rewrite Htr, failed_rounds_S. cbn [trace].
        rewrite <- !app_assoc. reflexivity.
      * destruct r as [v |]; [| lia].
        destruct Hr as [Hk He]. split; [lia | exact He].
Qed.

(** For any probe and a non-negative delay the wrapper returns, and its
    trace is [k] rounds of a call and a sleep followed, when it returns a
    value, by the call that produced it. So it calls the probe at most
    [times] times, stops at the first value, sleeps once per [None] and
    never after a value, and returns [None] only after [times] calls. *)
Theorem retry_trace_shape {E T : Type} (elapse : Q -> E -> E) (times : Z)
  (sleep_ms : Q) (f : E -> option T * E) (e0 : E) :
  (0 <= sleep_ms)%Q ->
  exists k r w',
    retry_on_none elapse times sleep_ms f (mkWorld e0 []) = (Ok r, w') /\
    trace w' =
      (failed_rounds sleep_ms k
         ++ match r with Some _ => [Call] | None => [] end)%list /\
    delays (trace w') = k /\
    calls (trace w') = match r with Some _ => S k | None => k end /\
    (calls (trace w') <= Z.to_nat times)%nat /\
    match r with
    | Some v => exists e, f e = (Some v, env w')
    | None => k = Z.to_nat times
    end.
Proof.
  intros Hsleep. unfold retry_on_none, wrapper.
  destruct (wrapper_loop_shape elapse sleep_ms f (Z.to_nat times)
              (mkWorld e0 []) Hsleep) as (k & r & w' & Hrun & Htr & Hr).
  cbn [trace app] in Htr.
  exists k, r, w'. split; [exact Hrun |]. split; [exact Htr |].
  rewrite Htr, calls_app, delays_app.
  destruct (failed_rounds_counts sleep_ms k) as (-> & -> & _).
  destruct r as [v |]; cbn.
  - destruct Hr as [Hk He]. repeat split; try lia. exact He.
  - repeat split; lia.
Qed.

Lemma retry_trace_shape_witness :
  exists k r w',
    retry_on_none steady 2 500 found_on_third (mkWorld 0%nat [])
      = (Ok r, w') /\
    delays (trace w') = k /\ (calls (trace w') <= Z.to_nat 2)%nat.
Proof.
  assert (Hsleep : (0 <= 500)%Q) by discriminate.
  destruct (retry_trace_shape steady 2 500 found_on_third 0%nat Hsleep)
    as (k & r & w' & Hrun & _ & Hd & _ & Hc & _).
  exists k, r, w'. auto.
Defined.

Lemma absent_or_first_present {E T : Type} (f : E -> option T * E)
  (next : E -> E) (e : E) (n : nat) :
  (forall i, (i < n)%nat -> fst (f (Nat.iter i next e)) = None) \/
  exists k v,
    (k < n)%nat /\
    (forall i, (i < k)%nat -> fst (f (Nat.iter i next e)) = None) /\
    fst (f (Nat.iter k next e)) = Some v.
Proof.
  induction n as [| n [IH | (k & v & Hk & Hnone & Hsome)]].
  - left. intros i Hi. lia.
  - destruct (fst (f (Nat.iter n next e))) as [v |] eqn:Hn.
    + right. exists n, v. auto.
    + left. intros i Hi.
      destruct (Nat.eq_dec i n) as [-> | Hne]; [exact Hn | apply IH; lia].
  - right. exists k, v. auto.
Qed.

(** The result of the loop, read off the probe: [None] when the first [n]
    attempts find nothing, the first value found otherwise. *)
Lemma wrapper_loop_outcome {E T : Type} (elapse : Q -> E -> E)
  (sleep_ms : Q) (f : E -> option T * E) (n : nat) (e : E)
  (tr : list event) :
  (0 <= sleep_ms)%Q ->
  let next := after_failed_attempt elapse sleep_ms f in
  let run := wrapper_loop elapse sleep_ms f n (mkWorld e tr) in
  ((forall i, (i < n)%nat -> fst (f (Nat.iter i next e)) = None) /\
   run = (Ok None,
          mkWorld (Nat.iter n next e) (tr ++ failed_rounds sleep_ms n))) \/
  (exists k v,
     (k < n)%nat /\
     (forall i, (i < k)%nat -> fst (f (Nat.iter i next e)) = None) /\
     fst (f (Nat.iter k next e)) = Some v /\
     run = (Ok (Some v),
            mkWorld (snd (f (Nat.iter k next e)))
              ((tr ++ failed_rounds sleep_ms k) ++ [Call]))).
Proof.
  intros Hsleep next run. subst run.
  destruct (absent_or_first_present f next e n)
    as [Hnone | (k & v & Hk & Hnone & Hsome)].
  - left. split; [exact Hnone |].
    pose proof (wrapper_loop_absent_prefix elapse sleep_ms f Hsleep n 0 e tr
                  Hnone) as Hrun.
    rewrite Nat.add_0_r in Hrun. exact Hrun.
  - right. exists k, v. repeat split; try assumption.
    replace n with (k + S (n - k - 1))%nat by lia.
    rewrite (wrapper_loop_absent_prefix elapse sleep_ms f Hsleep k _ e tr
               Hnone).
    apply (wrapper_loop_present elapse sleep_ms f _ _ _ v Hsome).
Qed.

(** With a non-negative delay the wrapper returns [None] exactly when the
    probe returns [None] on each of its [times] attempts, and returns a
    value exactly when that value is the first one the probe returns within
    [times] attempts. *)
Theorem retry_result_iff {E T : Type} (elapse : Q -> E -> E) (times : Z)
  (sleep_ms : Q) (f : E -> option T * E) (e0 : E) :
  (0 <= sleep_ms)%Q ->
  let next := after_failed_attempt elapse sleep_ms f in
  let run := retry_on_none elapse times sleep_ms f (mkWorld e0 []) in
  (fst run = Ok None <->
   forall i, (i < Z.to_nat times)%nat ->
     fst (f (Nat.iter i next e0)) = None) /\
  (forall v,
     fst run = Ok (Some v) <->
     exists k,
       (k < Z.to_nat times)%nat /\
       (forall i, (i < k)%nat -> fst (f (Nat.iter i next e0)) = None) /\
       fst (f (Nat.iter k next e0)) = Some v).
Proof.
  intros Hsleep next run. subst run next. unfold retry_on_none, wrapper.
  destruct (wrapper_loop_outcome elapse sleep_ms f (Z.to_nat times) e0 []
              Hsleep)
    as [[Hnone ->] | (k & v0 & Hk & Hnone & Hsome & ->)]; cbn [fst].
  - split; [split; auto |].
    intros v. split; [discriminate |].
    intros (k & Hk & _ & Hsome). rewrite (Hnone k Hk) in Hsome.
    discriminate.
  - split.
    + split; [discriminate |].
      intros Hall. rewrite (Hall k Hk) in Hsome. discriminate.
    + intros v. split.
      * intros H. injection H as <-. exists k. auto.
      * intros (k' & Hk' & Hnone' & Hsome').
        destruct (Nat.lt_trichotomy k' k) as [Hlt | [-> | Hgt]].
        -- rewrite (Hnone k' Hlt) in Hsome'. discriminate.
        -- congruence.
        -- rewrite (Hnone' k Hgt) in Hsome. discriminate.
Qed.

Lemma retry_result_iff_witness :
  fst (retry_on_none steady 10 500 found_on_third (mkWorld 0%nat []))
    = Ok (Some 7%nat).
Proof.
  assert (Hsleep : (0 <= 500)%Q) by discriminate.
  destruct (retry_result_iff steady 10 500 found_on_third 0%nat Hsleep)
    as [_ H].
  apply H. exists 2%nat. split; [cbn; lia |]. split; [| reflexivity].
  intros i Hi. destruct i as [| [| i]]; [reflexivity | reflexivity | lia].
Defined.

Lemma wrapper_loop_more {E T : Type} (elapse : Q -> E -> E) (sleep_ms : Q)
  (f : E -> option T * E) (n m : nat) (w w' : World E) (v : T) :
  wrapper_loop elapse sleep_ms f n w = (Ok (Some v), w') ->
  wrapper_loop elapse sleep_ms f (n + m) w = (Ok (Some v), w').
Proof.
  revert w. induction n as [| n IH]; intros w; [discriminate |].
  cbn [Nat.add]. rewrite !wrapper_loop_S.
  destruct (f (env w)) as [[v0 |] e]; [auto |].
  destruct (Qle_bool 0 (sleep_ms / 1000)); [apply IH | discriminate].
Qed.

(** A larger attempt budget never changes a success: when the wrapper
    returns a value with [times] attempts, it returns the same value, after
    the same calls and sleeps, with any larger budget. *)
Theorem retry_budget_monotone {E T : Type} (elapse : Q -> E -> E)
  (times times' : Z) (sleep_ms : Q) (f : E -> option T * E)
  (w w' : World E) (v : T) :
  times <= times' ->
  retry_on_none elapse times sleep_ms f w = (Ok (Some v), w') ->
  retry_on_none elapse times' sleep_ms f w = (Ok (Some v), w').
Proof.
  unfold retry_on_none, wrapper. intros Hle Hrun.
  replace (Z.to_nat times')
    with (Z.to_nat times + (Z.to_nat times' - Z.to_nat times))%nat by lia.
  apply wrapper_loop_more. exact Hrun.
Qed.

Lemma retry_budget_monotone_witness :
  retry_on_none steady 10 500 found_on_third (mkWorld 0%nat [])
    = (Ok (Some 7%nat),
       mkWorld 3%nat
         [Call; Sleep (500 / 1000)%Q; Call; Sleep (500 / 1000)%Q; Call]).
Proof.
  assert (Hle : 3 <= 10) by lia.
  apply (retry_budget_monotone steady 3 10 500 found_on_third
           (mkWorld 0%nat []) _ 7%nat Hle).
  reflexivity.
Defined.

(** * Further properties of the program *)

Lemma fetch_once_select {E : Type} (discover : E -> list Device * E)
  (e : E) :
  fst (fetch_once discover e) = select_payload (fst (discover e)).
Proof.
  unfold fetch_once. destruct (discover e) as [devices e'].
  cbn [fst]. apply fetch_loop_fst.
Qed.

(** [main] after the retried scan has returned. *)
Lemma main_with_after_fetch {E : Type} (discover : E -> list Device * E)
  (elapse : Q -> E -> E) (parse_airpods_data : bytes -> result pyval)
  (w w' : World E) (r : option bytes) :
  fetch_airpods_raw_data discover elapse w = (Ok r, w') ->
  main_with discover elapse parse_airpods_data w =
    match r with
    | None => (Raise (SystemExit 1), emit (Print disconnected_line) w')
    | Some raw =>
        match parse_airpods_data raw with
        | Ok st => (Ok tt, emit (Print (json_dumps st)) w')
        | Raise e => (Raise e, w')
        end
    end.
Proof.
  intros Hrun. unfold main_with, io_bind. rewrite Hrun.
  destruct r as [raw |].
  - unfold io_lift, print. destruct (parse_airpods_data raw); reflexivity.
  - reflexivity.
Qed.

Lemma main_with_shape {E : Type} (discover : E -> list Device * E)
  (elapse : Q -> E -> E) (parse_airpods_data : bytes -> result pyval)
  (e : E) :
  (forall raw,
     length raw = 54%nat ->
     Forall (fun b => hex_value (chr b) <> None) raw ->
     exists st, parse_airpods_data raw = Ok st /\
                dict_get "connected" st = Some (PBool true)) ->
  main_trace_shape
    (fst (main_with discover elapse parse_airpods_data (mkWorld e [])))
    (trace (snd (main_with discover elapse parse_airpods_data
                   (mkWorld e [])))).
Proof.
  intros Hparse.
  assert (Hsleep : (0 <= 500)%Q) by discriminate.
  destruct (wrapper_loop_shape elapse 500 (fetch_once discover)
              (Z.to_nat 10) (mkWorld e []) Hsleep)
    as (k & r & w' & Hrun & Htr & Hr).
  rewrite (main_with_after_fetch discover elapse parse_airpods_data _ w' r
             Hrun).
  cbn [trace app] in Htr.
  destruct r as [raw |].
  - destruct Hr as [Hk [e' He']].
    assert (Hraw : fst (fetch_loop (fst (discover e'))) = Some raw).
    { unfold fetch_once in He'. destruct (discover e') as [devices e''].
      cbn [fst]. injection He' as -> _. reflexivity. }
    destruct (fetch_loop_payload _ raw Hraw) as [Hlen Hhex].
    destruct (Hparse raw Hlen Hhex) as (st & -> & _).
    exists k, true, (json_dumps st). cbn [fst snd trace emit exit_status].
    rewrite Htr, <- app_assoc. repeat split. cbn in Hk. lia.
  - exists k, false, disconnected_line.
    cbn [fst snd trace emit exit_status].
    rewrite Htr, app_nil_r. repeat split. cbn in Hr. lia.
Qed.

(** Every run of either program has the same shape: at most ten scans,
    a sleep of half a second after each scan that found nothing (the tenth
    included), no scan after one that found a payload, and exactly one
    line, printed after the last scan or sleep. The exit status is 0 when a
    scan found a payload and 1 when all ten found nothing. *)
Theorem main_run_shape {E : Type} (discover : E -> list Device * E)
  (elapse : Q -> E -> E) (e : E) :
  main_trace_shape
    (fst (airstatus_main discover elapse (mkWorld e [])))
    (trace (snd (airstatus_main discover elapse (mkWorld e [])))) /\
  main_trace_shape
    (fst (main_main discover elapse (mkWorld e [])))
    (trace (snd (main_main discover elapse (mkWorld e [])))).
Proof.
  unfold airstatus_main, main_main.
  split; apply main_with_shape; intros raw Hlen Hhex;
    apply decoders_total_on_hex; [lia | exact Hhex | lia | exact Hhex].
Qed.

Lemma main_with_exit_status {E : Type} (discover : E -> list Device * E)
  (elapse : Q -> E -> E) (parse_airpods_data : bytes -> result pyval)
  (e : E) :
  (forall raw,
     length raw = 54%nat ->
     Forall (fun b => hex_value (chr b) <> None) raw ->
     exists st, parse_airpods_data raw = Ok st /\
                dict_get "connected" st = Some (PBool true)) ->
  let next := after_failed_attempt elapse 500 (fetch_once discover) in
  let status :=
    exit_status
      (fst (main_with discover elapse parse_airpods_data (mkWorld e []))) in
  (status = 1 <->
   forall i, (i < 10)%nat ->
     select_payload (fst (discover (Nat.iter i next e))) = None) /\
  (status = 0 \/ status = 1).
Proof.
  intros Hparse next status. subst status next.
  assert (Hsleep : (0 <= 500)%Q) by discriminate.
  destruct (wrapper_loop_outcome elapse 500 (fetch_once discover)
              (Z.to_nat 10) e [] Hsleep)
    as [[Hnone Hrun] | (k & raw & Hk & Hnone & Hsome & Hrun)];
    rewrite (main_with_after_fetch discover elapse parse_airpods_data _ _ _
               Hrun).
  - cbn [fst exit_status]. split; [| auto]. split; [| reflexivity].
    intros _ i Hi. rewrite <- fetch_once_select. apply Hnone. cbn. lia.
  - assert (Hraw : fst (fetch_loop
                          (fst (discover
                                  (Nat.iter k
                                     (after_failed_attempt elapse 500
                                        (fetch_once discover)) e))))
                   = Some raw).
    { rewrite fetch_loop_fst, <- fetch_once_select. exact Hsome. }
    destruct (fetch_loop_payload _ raw Hraw) as [Hlen Hhex].
    destruct (Hparse raw Hlen Hhex) as (st & -> & _).
    cbn [fst exit_status]. split; [| auto]. split; [discriminate |].
    intros Hall. cbn in Hk.
    rewrite fetch_once_select, (Hall k) in Hsome by lia. discriminate.
Qed.

(** Either program exits with status 1 exactly when none of ten
    successive scans, each made after the sleep that follows the one
    before, holds a record that passes the filter; otherwise it exits with
    status 0. *)
Theorem main_exit_status {E : Type} (discover : E -> list Device * E)
  (elapse : Q -> E -> E) (e : E) :
  let next := after_failed_attempt elapse 500 (fetch_once discover) in
  let nothing_found :=
    forall i, (i < 10)%nat ->
      select_payload (fst (discover (Nat.iter i next e))) = None in
  let airstatus_status :=
    exit_status (fst (airstatus_main discover elapse (mkWorld e []))) in
  let main_status :=
    exit_status (fst (main_main discover elapse (mkWorld e []))) in
  (airstatus_status = 1 <-> nothing_found) /\
  (main_status = 1 <-> nothing_found) /\
  (airstatus_status = 0 \/ airstatus_status = 1) /\
  (main_status = 0 \/ main_status = 1).
Proof.
  cbv zeta. unfold airstatus_main, main_main.
  destruct (main_with_exit_status discover elapse
              Airstatus.parse_airpods_data e) as [A1 A2].
  { intros raw Hlen Hhex. apply decoders_total_on_hex; [lia | exact Hhex]. }
  destruct (main_with_exit_status discover elapse
              Main.parse_airpods_data e) as [M1 M2].
  { intros raw Hlen Hhex. apply decoders_total_on_hex; [lia | exact Hhex]. }
  auto.
Qed.
